(** * The CTI chaincode (smartcontract.go) over a key-ordered world state

    The contract keeps three kinds of records on a Hyperledger Fabric
    ledger: CTI items under [CTI_<n>], user records under
    [UserData_<identity>] and reviews under [Review_<reviewID>], with two
    decimal counters under [latestID] and [latestID_Review].

    The development follows the Go source function by function.  The
    collaborators of the contract (the chaincode stub, the client
    identity, strconv and encoding/json) are modelled first, then the
    thirteen transactions, then the properties. *)

From Stdlib Require Import String Ascii ZArith List Lia Bool.
From Stdlib Require Import DecimalString DecimalPos.
Import ListNotations.

Open Scope Z_scope.
Open Scope string_scope.

(** ** Go values *)

(** Go's [int] on the 64-bit targets Fabric runs on. *)
Definition int := Z.

Definition minInt : Z := - 2 ^ 63.
Definition maxInt : Z := 2 ^ 63 - 1.

Definition inInt (z : Z) : bool := ((minInt <=? z)%Z && (z <=? maxInt)%Z)%bool.

(** Two's complement wrap-around of an arithmetic result. *)
Definition wrap (z : Z) : int := (z + 2 ^ 63) mod 2 ^ 64 - 2 ^ 63.

(** [latestID++] *)
Definition incr (n : int) : int := wrap (n + 1).

(** Go's [error] values.  [wrapError msg err] is
    [fmt.Errorf(msg + "%v", err)]; [errorString] is an error made from a
    finished message, which is also how the errors of the collaborators
    come in. *)
Inductive numErr := ErrSyntax | ErrRange.

Inductive error : Type :=
| errorString (s : string)
| wrapError (msg : string) (err : error)
| NumError (Func Num : string) (Err : numErr)
| UnmarshalError (what : string).

(** The Go idiom [(value, err)]: [err = None] is [nil]. *)
Definition errOf := option error.

(** ** strconv *)

Module strconv.

(** [strconv.Itoa]: decimal digits, a leading [-] for negatives. *)
Definition Itoa (i : int) : string := NilZero.string_of_int (Z.to_int i).

(** The digits of [strconv.Atoi]'s argument after the sign: at least one,
    all decimal. *)
Definition digits (s : string) : option N :=
  match s with
  | EmptyString => None
  | _ => option_map N.of_uint (NilEmpty.uint_of_string s)
  end.

(** [strconv.Atoi]: an optional sign, then decimal digits; [ErrSyntax]
    when the text has another shape, [ErrRange] when the value does not
    fit an [int]. *)
Definition Atoi (s : string) : int * errOf :=
  let neg :=
    match s with
    | String c _ => (c =? "-")%char
    | EmptyString => false
    end in
  let body :=
    match s with
    | String c rest => if ((c =? "-")%char || (c =? "+")%char)%bool then rest else s
    | EmptyString => s
    end in
  match digits body with
  | None => (0, Some (NumError "Atoi" s ErrSyntax))
  | Some n =>
      let z := if neg then (- Z.of_N n)%Z else Z.of_N n in
      if inInt z then (z, None)
      else ((if neg then minInt else maxInt), Some (NumError "Atoi" s ErrRange))
  end.

End strconv.

(** ** encoding/json and ledger values *)

(** The contract marshals flat structs whose fields are strings and ints.
    The text of the wire format is not modelled: a marshalled struct is
    kept as the JSON object it denotes, members in the order of the
    struct's fields.  What the encoder does to the content of a string
    is modelled (see [json.coerce] below): a Go string is any sequence of
    bytes, and the encoder writes U+FFFD for the bytes that are not valid
    UTF-8. *)
Inductive jvalue :=
| JString (s : string)
| JNumber (n : int).

Definition members := list (string * jvalue).

(** A ledger value ([[]byte]).  The contract writes two kinds: the text
    of a counter, [[]byte(strconv.Itoa(n))], and the result of
    [json.Marshal].  [Text] is for byte strings that are not JSON
    objects. *)
Inductive bytes :=
| Text (s : string)
| JSON (o : members).

(** [string(b)].  For an object only the fact that its text opens with a
    brace matters to the contract; member values are rendered without
    the escapes of the real encoder. *)
Definition quote : string := String (ascii_of_nat 34) EmptyString.

Definition render_value (v : jvalue) : string :=
  match v with
  | JString s => quote ++ s ++ quote
  | JNumber n => strconv.Itoa n
  end.

Fixpoint render_members (o : members) : string :=
  match o with
  | [] => EmptyString
  | [(k, v)] => quote ++ k ++ quote ++ ":" ++ render_value v
  | (k, v) :: rest =>
      quote ++ k ++ quote ++ ":" ++ render_value v ++ "," ++ render_members rest
  end.

Definition string_of_bytes (b : bytes) : string :=
  match b with
  | Text s => s
  | JSON o => "{" ++ render_members o ++ "}"
  end.

(** ** unicode/utf8 and the encoder's treatment of strings *)

Module utf8.

(** The table [first] of the Go library with its [acceptRanges]: what a
    first byte announces.  [as_] is a single ASCII byte, [xx] a byte that
    starts no rune, [lead size lo hi] the first of [size] bytes whose
    second byte must lie in [lo..hi]. *)
Inductive info :=
| as_
| xx
| lead (size : nat) (lo hi : N).

Definition first (b : N) : info :=
  if (b <? 128)%N then as_
  else if (b <? 194)%N then xx
  else if (b <? 224)%N then lead 2 128 191
  else if (b =? 224)%N then lead 3 160 191
  else if (b =? 237)%N then lead 3 128 159
  else if (b <? 240)%N then lead 3 128 191
  else if (b =? 240)%N then lead 4 144 191
  else if (b <? 244)%N then lead 4 128 191
  else if (b =? 244)%N then lead 4 128 143
  else xx.

(** The next byte of [s], when it lies in [lo..hi], and what follows. *)
Definition accept (lo hi : N) (s : string) : option string :=
  match s with
  | String c rest =>
      if ((lo <=? N_of_ascii c)%N && (N_of_ascii c <=? hi)%N)%bool then Some rest else None
  | EmptyString => None
  end.

(** [utf8.DecodeRuneInString], as far as the encoder looks at it: the
    size of the rune at the head of [s], or [None] for the result
    [(RuneError, 1)] of a byte that starts no well-formed rune. *)
Definition DecodeRuneInString (s : string) : option nat :=
  match s with
  | EmptyString => None
  | String c rest =>
      match first (N_of_ascii c) with
      | as_ => Some 1%nat
      | xx => None
      | lead size lo hi =>
          match accept lo hi rest with
          | None => None
          | Some rest1 =>
              match size with
              | 2%nat => Some 2%nat
              | 3%nat =>
                  match accept 128 191 rest1 with
                  | None => None
                  | Some _ => Some 3%nat
                  end
              | _ =>
                  match accept 128 191 rest1 with
                  | None => None
                  | Some rest2 =>
                      match accept 128 191 rest2 with
                      | None => None
                      | Some _ => Some 4%nat
                      end
                  end
              end
          end
      end
  end.

(** The three bytes of U+FFFD. *)
Definition RuneError : string :=
  String (ascii_of_nat 239) (String (ascii_of_nat 191) (String (ascii_of_nat 189) EmptyString)).

End utf8.

Module json.

(** What [json.Marshal] followed by [json.Unmarshal] makes of a string:
    the encoder walks the bytes, keeps every well-formed rune and writes
    U+FFFD for each byte that starts none; the escapes it adds are undone
    by the decoder.  [pending] counts the bytes of the current rune that
    are still to be copied. *)
Fixpoint coerce (pending : nat) (s : string) : string :=
  match s with
  | EmptyString => EmptyString
  | String c rest =>
      match pending with
      | S p => String c (coerce p rest)
      | O =>
          match utf8.DecodeRuneInString s with
          | Some size => String c (coerce (Nat.pred size) rest)
          | None => utf8.RuneError ++ coerce 0 rest
          end
      end
  end.

Definition coerceUTF8 (s : string) : string := coerce 0 s.

(** All bytes below 128. *)
Fixpoint isASCII (s : string) : bool :=
  match s with
  | EmptyString => true
  | String c rest => (N_of_ascii c <? 128)%N && isASCII rest
  end.

End json.

Module CTIData.
Record t := mk {
  ID : string;
  Name : string;
  Uploader : string;
  Timestamp : int;
  CID : string;
  EncryptKey : string;
  Points : int;
  Level : int
}.

Definition zero : t := mk EmptyString EmptyString EmptyString 0 EmptyString EmptyString 0 0.

(** The record with its strings as the encoder leaves them. *)
Definition coerced (c : t) : t :=
  mk (json.coerceUTF8 (ID c)) (json.coerceUTF8 (Name c)) (json.coerceUTF8 (Uploader c))
     (Timestamp c) (json.coerceUTF8 (CID c)) (json.coerceUTF8 (EncryptKey c))
     (Points c) (Level c).

(** [json.Marshal(c)]: strings are coerced to valid UTF-8. *)
Definition Marshal (c : t) : bytes :=
  JSON [ ("ID", JString (json.coerceUTF8 (ID c)));
         ("Name", JString (json.coerceUTF8 (Name c)));
         ("Uploader", JString (json.coerceUTF8 (Uploader c)));
         ("Timestamp", JNumber (Timestamp c));
         ("CID", JString (json.coerceUTF8 (CID c)));
         ("encryptKey", JString (json.coerceUTF8 (EncryptKey c)));
         ("Points", JNumber (Points c)); ("Level", JNumber (Level c)) ].

(** One member of the object being decoded into the struct: a known
    name with a value of the field's type sets the field, with a value
    of another type it is an error, an unknown name is skipped.  Names
    are matched as written (the decoder would also take a name that
    differs in case only; the contract writes none). *)
Definition set (k : string) (v : jvalue) (c : t) : option t :=
  match v with
  | JString s =>
      if k =? "ID" then Some (mk s (Name c) (Uploader c) (Timestamp c) (CID c) (EncryptKey c) (Points c) (Level c))
      else if k =? "Name" then Some (mk (ID c) s (Uploader c) (Timestamp c) (CID c) (EncryptKey c) (Points c) (Level c))
      else if k =? "Uploader" then Some (mk (ID c) (Name c) s (Timestamp c) (CID c) (EncryptKey c) (Points c) (Level c))
      else if k =? "CID" then Some (mk (ID c) (Name c) (Uploader c) (Timestamp c) s (EncryptKey c) (Points c) (Level c))
      else if k =? "encryptKey" then Some (mk (ID c) (Name c) (Uploader c) (Timestamp c) (CID c) s (Points c) (Level c))
      else if (k =? "Timestamp") || (k =? "Points") || (k =? "Level") then None
      else Some c
  | JNumber n =>
      if k =? "Timestamp" then Some (mk (ID c) (Name c) (Uploader c) n (CID c) (EncryptKey c) (Points c) (Level c))
      else if k =? "Points" then Some (mk (ID c) (Name c) (Uploader c) (Timestamp c) (CID c) (EncryptKey c) n (Level c))
      else if k =? "Level" then Some (mk (ID c) (Name c) (Uploader c) (Timestamp c) (CID c) (EncryptKey c) (Points c) n)
      else if (k =? "ID") || (k =? "Name") || (k =? "Uploader") || (k =? "CID") || (k =? "encryptKey") then None
      else Some c
  end.

Fixpoint decode (o : members) (c : t) : option t :=
  match o with
  | [] => Some c
  | (k, v) :: rest =>
      match set k v c with
      | Some c' => decode rest c'
      | None => None
      end
  end.

(** [json.Unmarshal(b, &c)] on a fresh [var c CTIData]. *)
Definition Unmarshal (b : bytes) : t * errOf :=
  match b with
  | JSON o =>
      match decode o zero with
      | Some c => (c, None)
      | None => (zero, Some (UnmarshalError "CTIData"))
      end
  | Text _ => (zero, Some (UnmarshalError "CTIData"))
  end.
End CTIData.

Module UserData.
Record t := mk {
  ID : string;
  UserLevel : int;
  UploadCount : int;
  Points : int;
  Subscribed : int;
  Balance : int
}.

Definition zero : t := mk EmptyString 0 0 0 0 0.

(** [json.Marshal(u)].  The one string of a [UserData] is the identity of
    a client, which [GetID] gives as base64 text; the encoder keeps such
    a string byte for byte. *)
Definition Marshal (u : t) : bytes :=
  JSON [ ("ID", JString (ID u)); ("UserLevel", JNumber (UserLevel u));
         ("UploadCount", JNumber (UploadCount u)); ("Points", JNumber (Points u));
         ("Subscribed", JNumber (Subscribed u)); ("Balance", JNumber (Balance u)) ].

Definition set (k : string) (v : jvalue) (u : t) : option t :=
  match v with
  | JString s =>
      if k =? "ID" then Some (mk s (UserLevel u) (UploadCount u) (Points u) (Subscribed u) (Balance u))
      else if (k =? "UserLevel") || (k =? "UploadCount") || (k =? "Points")
              || (k =? "Subscribed") || (k =? "Balance") then None
      else Some u
  | JNumber n =>
      if k =? "UserLevel" then Some (mk (ID u) n (UploadCount u) (Points u) (Subscribed u) (Balance u))
      else if k =? "UploadCount" then Some (mk (ID u) (UserLevel u) n (Points u) (Subscribed u) (Balance u))
      else if k =? "Points" then Some (mk (ID u) (UserLevel u) (UploadCount u) n (Subscribed u) (Balance u))
      else if k =? "Subscribed" then Some (mk (ID u) (UserLevel u) (UploadCount u) (Points u) n (Balance u))
      else if k =? "Balance" then Some (mk (ID u) (UserLevel u) (UploadCount u) (Points u) (Subscribed u) n)
      else if k =? "ID" then None
      else Some u
  end.

Fixpoint decode (o : members) (u : t) : option t :=
  match o with
  | [] => Some u
  | (k, v) :: rest =>
      match set k v u with
      | Some u' => decode rest u'
      | None => None
      end
  end.

(** [json.Unmarshal(b, &u)] on a fresh [var u UserData]. *)
Definition Unmarshal (b : bytes) : t * errOf :=
  match b with
  | JSON o =>
      match decode o zero with
      | Some u => (u, None)
      | None => (zero, Some (UnmarshalError "UserData"))
      end
  | Text _ => (zero, Some (UnmarshalError "UserData"))
  end.
End UserData.

Module ReviewData.
Record t := mk {
  ID : string;
  UserDataID : string;
  CTIDataID : string;
  Accuracy : int;
  Timeliness : int;
  Completeness : int;
  Consistency : int;
  ReviewText : string
}.

Definition zero : t := mk EmptyString EmptyString EmptyString 0 0 0 0 EmptyString.

(** The record with its strings as the encoder leaves them. *)
Definition coerced (r : t) : t :=
  mk (json.coerceUTF8 (ID r)) (json.coerceUTF8 (UserDataID r)) (json.coerceUTF8 (CTIDataID r))
     (Accuracy r) (Timeliness r) (Completeness r) (Consistency r)
     (json.coerceUTF8 (ReviewText r)).

(** [json.Marshal(r)]: strings are coerced to valid UTF-8. *)
Definition Marshal (r : t) : bytes :=
  JSON [ ("ID", JString (json.coerceUTF8 (ID r)));
         ("UserDataID", JString (json.coerceUTF8 (UserDataID r)));
         ("CTIDataID", JString (json.coerceUTF8 (CTIDataID r)));
         ("Accuracy", JNumber (Accuracy r));
         ("Timeliness", JNumber (Timeliness r)); ("Completeness", JNumber (Completeness r));
         ("Consistency", JNumber (Consistency r));
         ("ReviewText", JString (json.coerceUTF8 (ReviewText r))) ].

Definition set (k : string) (v : jvalue) (r : t) : option t :=
  match v with
  | JString s =>
      if k =? "ID" then Some (mk s (UserDataID r) (CTIDataID r) (Accuracy r) (Timeliness r) (Completeness r) (Consistency r) (ReviewText r))
      else if k =? "UserDataID" then Some (mk (ID r) s (CTIDataID r) (Accuracy r) (Timeliness r) (Completeness r) (Consistency r) (ReviewText r))
      else if k =? "CTIDataID" then Some (mk (ID r) (UserDataID r) s (Accuracy r) (Timeliness r) (Completeness r) (Consistency r) (ReviewText r))
      else if k =? "ReviewText" then Some (mk (ID r) (UserDataID r) (CTIDataID r) (Accuracy r) (Timeliness r) (Completeness r) (Consistency r) s)
      else if (k =? "Accuracy") || (k =? "Timeliness") || (k =? "Completeness")
              || (k =? "Consistency") then None
      else Some r
  | JNumber n =>
      if k =? "Accuracy" then Some (mk (ID r) (UserDataID r) (CTIDataID r) n (Timeliness r) (Completeness r) (Consistency r) (ReviewText r))
      else if k =? "Timeliness" then Some (mk (ID r) (UserDataID r) (CTIDataID r) (Accuracy r) n (Completeness r) (Consistency r) (ReviewText r))
      else if k =? "Completeness" then Some (mk (ID r) (UserDataID r) (CTIDataID r) (Accuracy r) (Timeliness r) n (Consistency r) (ReviewText r))
      else if k =? "Consistency" then Some (mk (ID r) (UserDataID r) (CTIDataID r) (Accuracy r) (Timeliness r) (Completeness r) n (ReviewText r))
      else if (k =? "ID") || (k =? "UserDataID") || (k =? "CTIDataID") || (k =? "ReviewText") then None
      else Some r
  end.

Fixpoint decode (o : members) (r : t) : option t :=
  match o with
  | [] => Some r
  | (k, v) :: rest =>
      match set k v r with
      | Some r' => decode rest r'
      | None => None
      end
  end.

(** [json.Unmarshal(b, &r)] on a fresh [var r ReviewData]. *)
Definition Unmarshal (b : bytes) : t * errOf :=
  match b with
  | JSON o =>
      match decode o zero with
      | Some r => (r, None)
      | None => (zero, Some (UnmarshalError "ReviewData"))
      end
  | Text _ => (zero, Some (UnmarshalError "ReviewData"))
  end.
End ReviewData.

(** ** The world state and the chaincode stub *)

(** The committed key-value state, kept in the byte order of its keys,
    which is the order a range scan delivers. *)
Definition WorldState := list (string * bytes).

Fixpoint lookup (key : string) (st : WorldState) : option bytes :=
  match st with
  | [] => None
  | (k, v) :: rest => if key =? k then Some v else lookup key rest
  end.

Fixpoint store (key : string) (value : bytes) (st : WorldState) : WorldState :=
  match st with
  | [] => [(key, value)]
  | (k, v) :: rest =>
      if key =? k then (key, value) :: rest
      else if String.ltb key k then (key, value) :: (k, v) :: rest
      else (k, v) :: store key value rest
  end.

Definition remove (key : string) (st : WorldState) : WorldState :=
  filter (fun kv => negb (key =? fst kv)) st.

(** Keys [k] with [startKey <= k < endKey]. *)
Definition inRange (startKey endKey k : string) : bool :=
  (String.leb startKey k && String.ltb k endKey)%bool.

Definition scan (startKey endKey : string) (st : WorldState) : WorldState :=
  filter (fun kv => inRange startKey endKey (fst kv)) st.

(** What a transaction is given: the identity of the client and a stub
    whose calls may fail.  Which call fails is the environment's choice,
    fixed per transaction: by key for reads, writes and deletes, by the
    pair of bounds for opening a range scan, and by the key of the entry
    for an iterator's [Next]. *)
Record TransactionContextInterface := {
  GetID : string * errOf;
  getStateErr : string -> errOf;
  putStateErr : string -> errOf;
  delStateErr : string -> errOf;
  rangeErr : string -> string -> errOf;
  nextErr : string -> errOf
}.

(** A transaction body: it runs from a world state to a returned value
    or a returned error, and the world state it leaves. *)
Inductive result (A : Type) :=
| Ok (a : A)
| Err (e : error).
Arguments Ok {A} a.
Arguments Err {A} e.

Definition M (A : Type) := WorldState -> result A * WorldState.

Definition ret {A} (a : A) : M A := fun st => (Ok a, st).

(** [return ..., err] *)
Definition fail {A} (e : error) : M A := fun st => (Err e, st).

Definition bind {A B} (m : M A) (f : A -> M B) : M B :=
  fun st =>
    match m st with
    | (Ok a, st') => f a st'
    | (Err e, st') => (Err e, st')
    end.

Notation "x <- m ;; k" := (bind m (fun x => k))
  (at level 61, m at next level, right associativity).
Notation "' pat <- m ;; k" := (bind m (fun x => match x with pat => k end))
  (at level 61, pat pattern, m at next level, right associativity).
Notation "m ;;; k" := (bind m (fun _ => k))
  (at level 61, right associativity).

(** [if err != nil { return wrap(err) }] *)
Definition ifErr (err : errOf) (wrap : error -> error) : M unit :=
  match err with
  | Some e => fail (wrap e)
  | None => ret tt
  end.

(** [v, err := cc.F(ctx); if err != nil { return wrap(err) }] for a call
    of another transaction body. *)
Definition orWrap {A} (m : M A) (wrap : error -> error) : M A :=
  fun st =>
    match m st with
    | (Ok a, st') => (Ok a, st')
    | (Err e, st') => (Err (wrap e), st')
    end.

Section Stub.
Variable ctx : TransactionContextInterface.

(** [ctx.GetClientIdentity().GetID()] *)
Definition GetClientID : M (string * errOf) := ret (GetID ctx).

(** [ctx.GetStub().GetState(key)]: the value, [nil] for a key that is
    not there; [nil] and the error when the read fails. *)
Definition GetState (key : string) : M (option bytes * errOf) :=
  fun st =>
    match getStateErr ctx key with
    | Some e => (Ok (None, Some e), st)
    | None => (Ok (lookup key st, None), st)
    end.

(** [ctx.GetStub().PutState(key, value)] *)
Definition PutState (key : string) (value : bytes) : M errOf :=
  fun st =>
    match putStateErr ctx key with
    | Some e => (Ok (Some e), st)
    | None => (Ok None, store key value st)
    end.

(** [ctx.GetStub().DelState(key)] *)
Definition DelState (key : string) : M errOf :=
  fun st =>
    match delStateErr ctx key with
    | Some e => (Ok (Some e), st)
    | None => (Ok None, remove key st)
    end.

(** [ctx.GetStub().GetStateByRange(startKey, endKey)]: the iterator is
    the list of the entries it will deliver. *)
Definition GetStateByRange (startKey endKey : string) : M (WorldState * errOf) :=
  fun st =>
    match rangeErr ctx startKey endKey with
    | Some e => (Ok ([], Some e), st)
    | None => (Ok (scan startKey endKey st, None), st)
    end.
End Stub.

(** ** The contract *)

Import strconv.

Section SmartContract.
Variable ctx : TransactionContextInterface.

(** An [if] whose body is empty. *)
Definition skip : M unit := ret tt.

(** [AddCTIItem]: the body of the check on the error of the read of
    [latestID] is commented out in the source, so the check does
    nothing. *)
Definition AddCTIItem (name : string) (timestamp : int) (cid encryptKey : string)
    (points level : int) : M unit :=
  '(uploader, err) <- GetClientID ctx ;;
  ifErr err (wrapError "failed to get uploader ID: ") ;;;
  '(idBytes, err) <- GetState ctx "latestID" ;;
  (match err with Some _ => skip | None => skip end) ;;;
  latestID <-
    match idBytes with
    | None => ret 1
    | Some b =>
        let '(latestID, err) := Atoi (string_of_bytes b) in
        ifErr err (wrapError "failed to convert latest ID to integer: ") ;;;
        ret (incr latestID)
    end ;;
  let ctiItem :=
    CTIData.mk (Itoa latestID) name uploader timestamp cid encryptKey points level in
  let ctiItemJSON := CTIData.Marshal ctiItem in
  err <- PutState ctx ("CTI_" ++ Itoa latestID) ctiItemJSON ;;
  ifErr err (wrapError "failed to put CTI data on ledger: ") ;;;
  err <- PutState ctx "latestID" (Text (Itoa latestID)) ;;
  ifErr err (wrapError "failed to update latest ID on ledger: ") ;;;
  ret tt.

Definition UpdateCTIItem (id name : string) (timestamp : int) (cid encryptKey : string)
    (points level : int) : M unit :=
  '(uploader, err) <- GetClientID ctx ;;
  ifErr err (wrapError "failed to get uploader ID: ") ;;;
  '(ctiItemJSON, err) <- GetState ctx ("CTI_" ++ id) ;;
  ifErr err (wrapError "failed to read CTI item from ledger: ") ;;;
  match ctiItemJSON with
  | None => fail (errorString ("CTI item with ID " ++ id ++ " does not exist"))
  | Some _ =>
      let ctiItem := CTIData.mk id name uploader timestamp cid encryptKey points level in
      let ctiItemJSON := CTIData.Marshal ctiItem in
      err <- PutState ctx ("CTI_" ++ id) ctiItemJSON ;;
      ifErr err (wrapError "failed to put updated CTI item on ledger: ") ;;;
      ret tt
  end.

Definition GetCTIItem (id : int) : M CTIData.t :=
  '(ctiItemJSON, err) <- GetState ctx ("CTI_" ++ Itoa id) ;;
  ifErr err (fun err => err) ;;;
  match ctiItemJSON with
  | None => fail (errorString ("CTI item with ID " ++ Itoa id ++ " does not exist"))
  | Some b =>
      let '(ctiItem, err) := CTIData.Unmarshal b in
      ifErr err (fun err => err) ;;;
      ret ctiItem
  end.

(** The loop of [GetAllCTIItems] over the iterator. *)
Fixpoint drainCTI (resultsIterator : WorldState) (ctiItems : list CTIData.t)
    : M (list CTIData.t) :=
  match resultsIterator with
  | [] => ret ctiItems
  | (key, value) :: rest =>
      ifErr (nextErr ctx key) (wrapError "failed to iterate over CTI data range: ") ;;;
      let '(ctiItem, err) := CTIData.Unmarshal value in
      ifErr err (wrapError "failed to unmarshal CTI data: ") ;;;
      drainCTI rest (ctiItems ++ [ctiItem])
  end.

Definition GetAllCTIItems : M (list CTIData.t) :=
  '(resultsIterator, err) <- GetStateByRange ctx "CTI_0" "CTI_999999" ;;
  ifErr err (wrapError "failed to get CTI data range: ") ;;;
  drainCTI resultsIterator [].

(** The struct literal of [AddUserData] names no [UserLevel]: it is the
    zero of its type. *)
Definition AddUserData (uploadCount points subscribed balance : int) : M unit :=
  '(user, err) <- GetClientID ctx ;;
  ifErr err (wrapError "failed to get client identity: ") ;;;
  let userData := UserData.mk user 0 uploadCount points subscribed balance in
  let userDataJSON := UserData.Marshal userData in
  err <- PutState ctx ("UserData_" ++ user) userDataJSON ;;
  ifErr err (fun err => err) ;;;
  ret tt.

Definition GetUserDataOld (user : string) : M UserData.t :=
  '(userDataJSON, err) <- GetState ctx ("UserData_" ++ user) ;;
  ifErr err (fun err => err) ;;;
  match userDataJSON with
  | None => fail (errorString ("User data for user " ++ user ++ " does not exist"))
  | Some b =>
      let '(userData, err) := UserData.Unmarshal b in
      ifErr err (fun err => err) ;;;
      ret userData
  end.

Definition GetUserData : M UserData.t :=
  '(peerID, err) <- GetClientID ctx ;;
  ifErr err (wrapError "failed to get current peer ID: ") ;;;
  '(userDataJSON, err) <- GetState ctx ("UserData_" ++ peerID) ;;
  ifErr err (fun err => err) ;;;
  match userDataJSON with
  | None =>
      let userData := UserData.mk peerID 0 0 0 0 0 in
      let userDataJSON := UserData.Marshal userData in
      err <- PutState ctx ("UserData_" ++ peerID) userDataJSON ;;
      ifErr err (wrapError "failed to put user data on ledger: ") ;;;
      ret userData
  | Some b =>
      let '(userData, err) := UserData.Unmarshal b in
      ifErr err (fun err => err) ;;;
      ret userData
  end.

Definition UpdateUserData (uploadCount points subscribed balance : int) : M unit :=
  '(peerID, err) <- GetClientID ctx ;;
  ifErr err (wrapError "failed to get current peer ID: ") ;;;
  '(existingUserDataJSON, err) <- GetState ctx ("UserData_" ++ peerID) ;;
  ifErr err (fun err => err) ;;;
  match existingUserDataJSON with
  | None => fail (errorString ("User data for peer " ++ peerID ++ " does not exist"))
  | Some b =>
      let '(existingUserData, err) := UserData.Unmarshal b in
      ifErr err (wrapError "failed to unmarshal existing user data: ") ;;;
      let existingUserData :=
        UserData.mk (UserData.ID existingUserData) (UserData.UserLevel existingUserData)
                    uploadCount points subscribed balance in
      let userDataJSON := UserData.Marshal existingUserData in
      err <- PutState ctx ("UserData_" ++ peerID) userDataJSON ;;
      ifErr err (wrapError "failed to put updated user data on ledger: ") ;;;
      ret tt
  end.

Definition generateUniqueID (prefix : string) : M string :=
  '(idBytes, err) <- GetState ctx ("latestID_" ++ prefix) ;;
  ifErr err (wrapError ("failed to read latest ID for prefix " ++ prefix ++ ": ")) ;;;
  latestID <-
    match idBytes with
    | None => ret 1
    | Some b =>
        let '(latestID, err) := Atoi (string_of_bytes b) in
        ifErr err (wrapError "failed to convert latest ID to integer: ") ;;;
        ret (incr latestID)
    end ;;
  err <- PutState ctx ("latestID_" ++ prefix) (Text (Itoa latestID)) ;;
  ifErr err (wrapError ("failed to update latest ID for prefix " ++ prefix ++ " on ledger: ")) ;;;
  ret (prefix ++ "_" ++ Itoa latestID).

Definition AddReviewData (ctiDataID : string)
    (accuracy timeliness completeness consistency : int) (reviewText : string) : M unit :=
  '(peerID, err) <- GetClientID ctx ;;
  ifErr err (wrapError "failed to get current peer ID: ") ;;;
  '(ctiItemJSON, err) <- GetState ctx ("CTI_" ++ ctiDataID) ;;
  ifErr err (wrapError "failed to read CTI item from ledger: ") ;;;
  match ctiItemJSON with
  | None => fail (errorString ("CTI item with ID " ++ ctiDataID ++ " does not exist"))
  | Some _ =>
      reviewID <- orWrap (generateUniqueID "Review")
                         (wrapError "failed to generate review ID: ") ;;
      let review :=
        ReviewData.mk reviewID peerID ctiDataID accuracy timeliness completeness
                      consistency reviewText in
      let reviewJSON := ReviewData.Marshal review in
      err <- PutState ctx ("Review_" ++ reviewID) reviewJSON ;;
      ifErr err (wrapError "failed to put review data on ledger: ") ;;;
      ret tt
  end.

(** The loop of [GetAllReviewData] over the iterator. *)
Fixpoint drainReviews (iterator : WorldState) (reviews : list ReviewData.t)
    : M (list ReviewData.t) :=
  match iterator with
  | [] => ret reviews
  | (key, value) :: rest =>
      ifErr (nextErr ctx key) (wrapError "failed to get next item in iterator: ") ;;;
      let '(review, err) := ReviewData.Unmarshal value in
      ifErr err (wrapError "failed to unmarshal review data: ") ;;;
      drainReviews rest (reviews ++ [review])
  end.

Definition GetAllReviewData : M (list ReviewData.t) :=
  let startKey := "Review_" in
  let endKey := "Review_z" in
  '(iterator, err) <- GetStateByRange ctx startKey endKey ;;
  ifErr err (wrapError "failed to read all review data entries: ") ;;;
  drainReviews iterator [].

Definition GetReviewDataByCTIDataID (ctiDataID : string) : M (list ReviewData.t) :=
  allReviewData <- orWrap GetAllReviewData
                          (wrapError "failed to get all review data entries: ") ;;
  ret (filter (fun review => ReviewData.CTIDataID review =? ctiDataID) allReviewData).

Definition GetCTIItemsFilteredBySubscriptionLevel : M (list CTIData.t) :=
  allCTIItems <- orWrap GetAllCTIItems
                        (wrapError "failed to get all CTI data entries: ") ;;
  userData <- orWrap GetUserData (wrapError "failed to get user data: ") ;;
  ret (filter (fun ctiItem => (CTIData.Level ctiItem <=? UserData.Subscribed userData)%Z)
              allCTIItems).

Definition DeleteCTIItemByID (id : string) : M unit :=
  '(existingItemJSON, err) <- GetState ctx ("CTI_" ++ id) ;;
  ifErr err (wrapError "failed to read CTI data entry: ") ;;;
  match existingItemJSON with
  | None => fail (errorString ("CTI data entry with ID " ++ id ++ " does not exist"))
  | Some _ =>
      err <- DelState ctx ("CTI_" ++ id) ;;
      ifErr err (wrapError "failed to delete CTI data entry: ") ;;;
      ret tt
  end.
End SmartContract.

(** ** Transactions in sequence *)

(** A context in which no collaborator fails, for the client [id]. *)
Definition honest (id : string) : TransactionContextInterface :=
  {| GetID := (id, None);
     getStateErr := fun _ => None;
     putStateErr := fun _ => None;
     delStateErr := fun _ => None;
     rangeErr := fun _ _ => None;
     nextErr := fun _ => None |}.

(** The same, except that the read of [key] fails with [e]. *)
Definition readFails (id key : string) (e : error) : TransactionContextInterface :=
  {| GetID := (id, None);
     getStateErr := fun k => if k =? key then Some e else None;
     putStateErr := fun _ => None;
     delStateErr := fun _ => None;
     rangeErr := fun _ _ => None;
     nextErr := fun _ => None |}.

(** The arguments of one [AddCTIItem]. *)
Record ItemArgs := {
  a_name : string;
  a_timestamp : int;
  a_cid : string;
  a_encryptKey : string;
  a_points : int;
  a_level : int
}.

Definition AddItem (ctx : TransactionContextInterface) (a : ItemArgs) : M unit :=
  AddCTIItem ctx (a_name a) (a_timestamp a) (a_cid a) (a_encryptKey a) (a_points a) (a_level a).

(** A sequence of [AddCTIItem] transactions, each in its own context: what
    each returned and the world state it left. *)
Fixpoint AddItems (calls : list (TransactionContextInterface * ItemArgs)) (st : WorldState)
    : list (result unit * WorldState) :=
  match calls with
  | [] => []
  | (ctx, a) :: rest =>
      let r := AddItem ctx a st in
      r :: AddItems rest (snd r)
  end.

(** The stored counter of the items. *)
Definition counter (st : WorldState) : option bytes := lookup "latestID" st.

Definition succeeded {A} (r : result A * WorldState) : bool :=
  match fst r with
  | Ok _ => true
  | Err _ => false
  end.

(** The transactions of the contract (its exported methods). *)
Inductive Invocation :=
| InvAddCTIItem (name : string) (timestamp : int) (cid encryptKey : string) (points level : int)
| InvUpdateCTIItem (id name : string) (timestamp : int) (cid encryptKey : string)
                   (points level : int)
| InvGetCTIItem (id : int)
| InvGetAllCTIItems
| InvAddUserData (uploadCount points subscribed balance : int)
| InvGetUserDataOld (user : string)
| InvGetUserData
| InvUpdateUserData (uploadCount points subscribed balance : int)
| InvAddReviewData (ctiDataID : string) (accuracy timeliness completeness consistency : int)
                   (reviewText : string)
| InvGetAllReviewData
| InvGetReviewDataByCTIDataID (ctiDataID : string)
| InvGetCTIItemsFilteredBySubscriptionLevel
| InvDeleteCTIItemByID (id : string).

(** The world state a transaction leaves, whatever it returns. *)
Definition invoke (ctx : TransactionContextInterface) (i : Invocation) (st : WorldState)
    : WorldState :=
  match i with
  | InvAddCTIItem name timestamp cid encryptKey points level =>
      snd (AddCTIItem ctx name timestamp cid encryptKey points level st)
  | InvUpdateCTIItem id name timestamp cid encryptKey points level =>
      snd (UpdateCTIItem ctx id name timestamp cid encryptKey points level st)
  | InvGetCTIItem id => snd (GetCTIItem ctx id st)
  | InvGetAllCTIItems => snd (GetAllCTIItems ctx st)
  | InvAddUserData uploadCount points subscribed balance =>
      snd (AddUserData ctx uploadCount points subscribed balance st)
  | InvGetUserDataOld user => snd (GetUserDataOld ctx user st)
  | InvGetUserData => snd (GetUserData ctx st)
  | InvUpdateUserData uploadCount points subscribed balance =>
      snd (UpdateUserData ctx uploadCount points subscribed balance st)
  | InvAddReviewData ctiDataID accuracy timeliness completeness consistency reviewText =>
      snd (AddReviewData ctx ctiDataID accuracy timeliness completeness consistency
                         reviewText st)
  | InvGetAllReviewData => snd (GetAllReviewData ctx st)
  | InvGetReviewDataByCTIDataID ctiDataID => snd (GetReviewDataByCTIDataID ctx ctiDataID st)
  | InvGetCTIItemsFilteredBySubscriptionLevel =>
      snd (GetCTIItemsFilteredBySubscriptionLevel ctx st)
  | InvDeleteCTIItemByID id => snd (DeleteCTIItemByID ctx id st)
  end.

(** The world states the contract can bring about from the empty ledger. *)
Inductive reachable : WorldState -> Prop :=
| reachable_empty : reachable []
| reachable_invoke ctx i st : reachable st -> reachable (invoke ctx i st).

(** Every user record of the world state is a marshalled [UserData] whose
    [ID] is the identity in its key and whose [UserLevel] is zero. *)
Definition userRecordsPlain (st : WorldState) : Prop :=
  forall id v, In ("UserData_" ++ id, v) st ->
    exists u, v = UserData.Marshal u /\ UserData.ID u = id /\ UserData.UserLevel u = 0%Z.

(** "The transaction hands the new ID back": some reading of the returned
    value gives, after every successful call, the counter value the call
    has just stored. *)
Definition AddCTIItem_returns_ID : Prop :=
  exists idOf : unit -> string,
    forall ctx name timestamp cid encryptKey points level st r st',
      AddCTIItem ctx name timestamp cid encryptKey points level st = (Ok r, st') ->
      lookup "latestID" st' = Some (Text (idOf r)).

Definition AddReviewData_returns_ID : Prop :=
  exists idOf : unit -> string,
    forall ctx ctiDataID accuracy timeliness completeness consistency reviewText st r st',
      AddReviewData ctx ctiDataID accuracy timeliness completeness consistency reviewText st
        = (Ok r, st') ->
      lookup "latestID_Review" st' = Some (Text (idOf r)).

(** The counter holds [n]; nothing is stored while [n = 0]. *)
Definition counterAt (n : Z) (st : WorldState) : Prop :=
  (n = 0%Z /\ counter st = None) \/ ((0 < n)%Z /\ counter st = Some (Text (Itoa n))).

(** What a transaction can do to the world state: writes, and deletions
    of items. *)
Inductive evolves (st : WorldState) : WorldState -> Prop :=
| evolves_refl : evolves st st
| evolves_store key value st' : evolves st st' -> evolves st (store key value st')
| evolves_remove id st' : evolves st st' -> evolves st (remove ("CTI_" ++ id) st').

(** The decoded values of the entries a range scan delivers. *)
Definition decodedItems (it : WorldState) : list CTIData.t :=
  map (fun kv => fst (CTIData.Unmarshal (snd kv))) it.

(** A ledger on which five items were added, and the one ledger with the
    counter at 999998, used as concrete inputs below. *)
Definition ledgerOfFive : WorldState :=
  snd (AddCTIItem (honest "bob") "e" 5 "cid5" "k5" 1 0
  (snd (AddCTIItem (honest "bob") "d" 4 "cid4" "k4" 1 0
  (snd (AddCTIItem (honest "bob") "c" 3 "cid3" "k3" 1 0
  (snd (AddCTIItem (honest "bob") "b" 2 "cid2" "k2" 1 0
  (snd (AddCTIItem (honest "bob") "a" 1 "cid1" "k1" 1 2 []))))))))).

Definition report : ItemArgs :=
  {| a_name := "report"; a_timestamp := 7; a_cid := "cid"; a_encryptKey := "key";
     a_points := 1; a_level := 0 |}.

(** The world state a sequence of calls has left. *)
Definition finalState (trace : list (result unit * WorldState)) (st : WorldState)
    : WorldState :=
  last (map snd trace) st.

(** Keys in strictly increasing byte order. *)
Fixpoint sortedKeys (st : WorldState) : Prop :=
  match st with
  | [] => True
  | (k, _) :: rest =>
      match rest with
      | [] => True
      | (k', _) :: _ => String.ltb k k' = true
      end /\ sortedKeys rest
  end.

(** ** Further notions for the properties of the whole contract *)

(** The counter stored under [key] holds [n]; nothing is stored while
    [n = 0]. *)
Definition counterHolds (key : string) (n : Z) (st : WorldState) : Prop :=
  (n = 0%Z /\ lookup key st = None) \/
  ((0 < n)%Z /\ lookup key st = Some (Text (Itoa n))).

(** The decoded values of the entries a scan of the reviews delivers. *)
Definition decodedReviews (it : WorldState) : list ReviewData.t :=
  map (fun kv => fst (ReviewData.Unmarshal (snd kv))) it.

(** Strings in strictly increasing byte order. *)
Fixpoint increasing (l : list string) : Prop :=
  match l with
  | [] => True
  | s :: rest =>
      match rest with
      | [] => True
      | s' :: _ => String.ltb s s' = true
      end /\ increasing rest
  end.

(** What the contract writes under a key of items, of reviews and of the
    two counters: a marshalled record whose [ID] is the id in the key
    (for an item, the decimal text of a number), and the decimal text of
    an [int]. *)
Definition entryPlain (k : string) (v : bytes) : Prop :=
  (forall id, k = "CTI_" ++ id ->
     exists c n, v = CTIData.Marshal c /\ CTIData.ID c = id /\ id = Itoa n) /\
  (forall id, k = "Review_" ++ id ->
     exists r, v = ReviewData.Marshal r /\ ReviewData.ID r = id) /\
  (k = "latestID" \/ k = "latestID_Review" ->
     exists n, inInt n = true /\ v = Text (Itoa n)).

Definition ledgerPlain (st : WorldState) : Prop :=
  forall k v, In (k, v) st -> entryPlain k v.

(** The ledger of five items after alice's review of item 2, and after
    bob's [AddUserData] as well: concrete ledgers of the contract's own. *)
Definition reviewedLedger : WorldState :=
  invoke (honest "alice") (InvAddReviewData "2" 5 4 3 2 "useful") ledgerOfFive.

Definition bobsLedger : WorldState :=
  invoke (honest "bob") (InvAddUserData 3 30 1 100) reviewedLedger.

(** * Properties *)

(** ** Tactics for running a transaction body *)

Ltac inv H := inversion H; subst; clear H.

(** Unfold the monad and the stub, and compute. *)
Ltac run :=
  repeat (progress (unfold bind, ret, fail, ifErr, orWrap, skip, GetClientID, GetState,
                           PutState, DelState, GetStateByRange in *; simpl in *)).

Ltac tidy :=
  repeat match goal with
         | H : (_, _) = (_, _) |- _ => inv H
         | H : Ok _ = Ok _ |- _ => inv H
         | H : Err _ = Err _ |- _ => inv H
         | H : Some _ = Some _ |- _ => inv H
         | H : Ok _ = Err _ |- _ => discriminate H
         | H : Err _ = Ok _ |- _ => discriminate H
         | H : Some _ = None |- _ => discriminate H
         | H : None = Some _ |- _ => discriminate H
         end.

(** Case analysis on what the next collaborator call returns. *)
Ltac break :=
  match goal with
  | H : context [match ?x with _ => _ end] |- _ => destruct x eqn:?
  | |- context [match ?x with _ => _ end] => destruct x eqn:?
  end.

Ltac go := repeat (run; tidy; try break).

(** ** strconv: [Atoi] reads back what [Itoa] writes *)

Lemma string_of_uint_head (d : Decimal.uint) :
  d <> Decimal.Nil ->
  exists c s, NilEmpty.string_of_uint d = String c s /\
              (c =? "-")%char = false /\ (c =? "+")%char = false.
Proof.
  destruct d; intros H; try congruence; simpl; eexists; eexists; repeat split.
Qed.

Lemma digits_to_uint (p : positive) :
  digits (NilEmpty.string_of_uint (Pos.to_uint p)) = Some (N.pos p).
Proof.
  unfold digits.
  destruct (string_of_uint_head _ (Unsigned.to_uint_nonnil p)) as (c & s & E & _).
  rewrite E, <- E, NilEmpty.usu. simpl. unfold N.of_uint. now rewrite Unsigned.of_to.
Qed.

Lemma Atoi_Itoa (z : int) : inInt z = true -> Atoi (Itoa z) = (z, None).
Proof.
  intros Hz. unfold Itoa. destruct z as [|p|p]; simpl Z.to_int.
  - reflexivity.
  - simpl NilZero.string_of_int. unfold NilZero.string_of_uint.
    pose proof (digits_to_uint p) as Hd.
    destruct (string_of_uint_head _ (Unsigned.to_uint_nonnil p)) as (c & s & E & Hm & Hp).
    destruct (Pos.to_uint p) eqn:Ep; [discriminate E| ..];
      rewrite E in *; unfold Atoi; rewrite Hm, Hp; simpl orb; cbv iota;
      rewrite Hd; simpl Z.of_N; rewrite Hz; reflexivity.
  - simpl NilZero.string_of_int. unfold NilZero.string_of_uint.
    pose proof (digits_to_uint p) as Hd.
    destruct (Pos.to_uint p) eqn:Ep; [now destruct (Unsigned.to_uint_nonnil p)| ..];
      unfold Atoi; simpl Ascii.eqb; simpl orb; cbv iota;
      rewrite Hd; simpl Z.of_N; simpl Z.opp; rewrite Hz; reflexivity.
Qed.

Lemma inInt_iff z : inInt z = true <-> (minInt <= z <= maxInt)%Z.
Proof. unfold inInt. rewrite andb_true_iff, !Z.leb_le. tauto. Qed.

Lemma incr_succ (n : int) : (minInt <= n < maxInt)%Z -> incr n = (n + 1)%Z.
Proof.
  unfold incr, wrap, minInt, maxInt. intros H.
  rewrite Z.mod_small; lia.
Qed.

(** At the largest [int] the increment wraps to the smallest. *)
Example incr_maxInt : incr maxInt = minInt.
Proof. reflexivity. Qed.

(** The text of a marshalled object is no number. *)
Lemma Atoi_JSON o : snd (Atoi (string_of_bytes (JSON o))) <> None.
Proof.
  unfold Atoi, digits. simpl.
  destruct (NilEmpty.uint_of_string _); simpl; discriminate.
Qed.
(** ** The world state *)

Lemma lookup_store_eq key value st : lookup key (store key value st) = Some value.
Proof.
  induction st as [|[k v] rest IH]; simpl.
  - now rewrite String.eqb_refl.
  - destruct (key =? k) eqn:E; simpl.
    + now rewrite String.eqb_refl.
    + destruct (String.ltb key k); simpl.
      * now rewrite String.eqb_refl.
      * now rewrite E.
Qed.

Lemma lookup_store_neq key key' value st :
  key' <> key -> lookup key' (store key value st) = lookup key' st.
Proof.
  intros Hne. apply String.eqb_neq in Hne.
  induction st as [|[k v] rest IH]; simpl.
  - now rewrite Hne.
  - destruct (String.eqb_spec key k) as [->|Hk]; simpl.
    + now rewrite Hne.
    + destruct (String.ltb key k); simpl.
      * now rewrite Hne.
      * now rewrite IH.
Qed.

Lemma lookup_remove_eq key st : lookup key (remove key st) = None.
Proof.
  unfold remove. induction st as [|[k v] rest IH]; simpl; [reflexivity|].
  destruct (key =? k) eqn:E; simpl; [assumption|]. now rewrite E.
Qed.

Lemma lookup_remove_neq key key' st :
  key' <> key -> lookup key' (remove key st) = lookup key' st.
Proof.
  intros Hne. unfold remove. induction st as [|[k v] rest IH]; simpl; [reflexivity|].
  destruct (String.eqb_spec key k) as [->|Hk]; simpl.
  - apply String.eqb_neq in Hne. now rewrite Hne.
  - now rewrite IH.
Qed.

Lemma lookup_In key value st : lookup key st = Some value -> In (key, value) st.
Proof.
  induction st as [|[k v] rest IH]; simpl; [discriminate|].
  destruct (String.eqb_spec key k) as [->|Hk].
  - intros [= ->]. now left.
  - intros H. right. now apply IH.
Qed.

Lemma In_store kv key value st :
  In kv (store key value st) -> kv = (key, value) \/ In kv st.
Proof.
  induction st as [|[k v] rest IH]; simpl.
  - intros [<-|[]]. now left.
  - destruct (key =? k); simpl.
    + intros [<-|H]; auto.
    + destruct (String.ltb key k); simpl.
      * intros [<-|[<-|H]]; auto.
      * intros [<-|H]; auto. destruct (IH H); auto.
Qed.

Lemma In_remove kv key st : In kv (remove key st) -> In kv st.
Proof. unfold remove. intros H. now apply filter_In in H. Qed.

Lemma scan_store_outside startKey endKey key value st :
  inRange startKey endKey key = false ->
  scan startKey endKey (store key value st) = scan startKey endKey st.
Proof.
  intros Hout. unfold scan. induction st as [|[k v] rest IH]; simpl.
  - now rewrite Hout.
  - destruct (String.eqb_spec key k) as [->|Hk]; simpl.
    + now rewrite Hout.
    + destruct (String.ltb key k); simpl.
      * now rewrite Hout.
      * now rewrite IH.
Qed.

Lemma scan_remove_outside startKey endKey key st :
  inRange startKey endKey key = false ->
  scan startKey endKey (remove key st) = scan startKey endKey st.
Proof.
  intros Hout. unfold scan, remove. induction st as [|[k v] rest IH]; simpl; [reflexivity|].
  destruct (String.eqb_spec key k) as [->|Hk]; simpl.
  - now rewrite Hout.
  - now rewrite IH.
Qed.

(** ** encoding/json: what is marshalled is read back *)

(** A string of ASCII bytes is left as it is by the encoder. *)
Lemma coerce_ASCII s : json.isASCII s = true -> json.coerceUTF8 s = s.
Proof.
  unfold json.coerceUTF8. induction s as [|c s IH]; [reflexivity|].
  cbn [json.isASCII]. intros H. apply andb_true_iff in H as [Hc Hs].
  cbn [json.coerce utf8.DecodeRuneInString]. unfold utf8.first. rewrite Hc.
  cbn [Nat.pred]. now rewrite IH.
Qed.

Lemma string_of_uint_ASCII d : json.isASCII (NilEmpty.string_of_uint d) = true.
Proof. induction d; cbn; auto. Qed.

Lemma Itoa_ASCII z : json.isASCII (Itoa z) = true.
Proof.
  unfold Itoa. destruct z as [|p|p]; cbn [Z.to_int NilZero.string_of_int]; [reflexivity|..];
    unfold NilZero.string_of_uint; destruct (Pos.to_uint p) eqn:E; try reflexivity;
    rewrite <- E; cbn [json.isASCII]; try apply string_of_uint_ASCII;
    now rewrite string_of_uint_ASCII.
Qed.

Lemma coerce_Itoa z : json.coerceUTF8 (Itoa z) = Itoa z.
Proof. apply coerce_ASCII, Itoa_ASCII. Qed.

(** What is read back is the record with its strings coerced. *)
Lemma CTIData_roundtrip c :
  CTIData.Unmarshal (CTIData.Marshal c) = (CTIData.coerced c, None).
Proof. now destruct c. Qed.

Lemma UserData_roundtrip u : UserData.Unmarshal (UserData.Marshal u) = (u, None).
Proof. now destruct u. Qed.

Lemma ReviewData_roundtrip r :
  ReviewData.Unmarshal (ReviewData.Marshal r) = (ReviewData.coerced r, None).
Proof. now destruct r. Qed.

Lemma UserData_Marshal_inj u u' : UserData.Marshal u = UserData.Marshal u' -> u = u'.
Proof. destruct u, u'. now intros [= -> -> -> -> -> ->]. Qed.

(** ** Keys *)

Lemma append_inj_l (p s s' : string) : p ++ s = p ++ s' -> s = s'.
Proof. induction p; simpl; [auto|]. intros [= H]. auto. Qed.

Lemma CTI_outside_reviews id : inRange "Review_" "Review_z" ("CTI_" ++ id) = false.
Proof. reflexivity. Qed.

Lemma UserData_outside_items id : inRange "CTI_0" "CTI_999999" ("UserData_" ++ id) = false.
Proof. reflexivity. Qed.

Lemma inRange_cons c s e k :
  inRange (String c s) (String c e) k = true ->
  exists k', k = String c k' /\ inRange s e k' = true.
Proof.
  unfold inRange, String.leb, String.ltb. destruct k as [|a k']; simpl; [discriminate|].
  rewrite (Ascii.compare_antisym a c).
  destruct (Ascii.compare c a) eqn:E; simpl; try discriminate.
  apply Ascii.compare_eq_iff in E. subst a. intros H. now exists k'.
Qed.

(** The range of [GetAllCTIItems] holds keys of items only. *)
Lemma items_range_prefix k :
  inRange "CTI_0" "CTI_999999" k = true -> exists id, k = "CTI_" ++ id.
Proof.
  intros H.
  apply inRange_cons in H as (k1 & -> & H). apply inRange_cons in H as (k2 & -> & H).
  apply inRange_cons in H as (k3 & -> & H). apply inRange_cons in H as (k4 & -> & H).
  now exists k4.
Qed.

(** The range of [GetAllReviewData] holds keys of reviews only, and all of
    them. *)
Lemma reviews_range_prefix k :
  inRange "Review_" "Review_z" k = true -> exists id, k = "Review_" ++ id.
Proof.
  intros H.
  apply inRange_cons in H as (k1 & -> & H). apply inRange_cons in H as (k2 & -> & H).
  apply inRange_cons in H as (k3 & -> & H). apply inRange_cons in H as (k4 & -> & H).
  apply inRange_cons in H as (k5 & -> & H). apply inRange_cons in H as (k6 & -> & H).
  apply inRange_cons in H as (k7 & -> & H).
  now exists k7.
Qed.

Lemma review_key_in_range n : inRange "Review_" "Review_z" ("Review_Review_" ++ n) = true.
Proof. reflexivity. Qed.

(** ** The queries read only *)

Lemma drainCTI_pure ctx it acc st :
  drainCTI ctx it acc st = (fst (drainCTI ctx it acc []), st).
Proof.
  revert acc. induction it as [|[k v] rest IH]; intros acc; simpl; [reflexivity|].
  run. destruct (nextErr ctx k); run; [reflexivity|].
  destruct (CTIData.Unmarshal v) as [c [e|]]; run; [reflexivity|]. apply IH.
Qed.

Lemma drainCTI_Ok ctx it : forall acc st items st',
  drainCTI ctx it acc st = (Ok items, st') -> items = (acc ++ decodedItems it)%list.
Proof.
  induction it as [|[k v] rest IH]; intros acc st items st' H; simpl in H.
  - run. tidy. now rewrite app_nil_r.
  - run. destruct (nextErr ctx k); run; tidy.
    destruct (CTIData.Unmarshal v) as [c [e|]] eqn:E; run; tidy.
    apply IH in H. subst items. unfold decodedItems. simpl.
    now rewrite <- app_assoc.
Qed.

Lemma drainReviews_pure ctx it acc st :
  drainReviews ctx it acc st = (fst (drainReviews ctx it acc []), st).
Proof.
  revert acc. induction it as [|[k v] rest IH]; intros acc; simpl; [reflexivity|].
  run. destruct (nextErr ctx k); run; [reflexivity|].
  destruct (ReviewData.Unmarshal v) as [c [e|]]; run; [reflexivity|]. apply IH.
Qed.

(** [GetAllCTIItems] depends on the entries of its range only. *)
Lemma GetAllCTIItems_scan ctx st st' :
  scan "CTI_0" "CTI_999999" st' = scan "CTI_0" "CTI_999999" st ->
  GetAllCTIItems ctx st' = (fst (GetAllCTIItems ctx st), st').
Proof.
  intros Hs. unfold GetAllCTIItems. run. rewrite Hs.
  destruct (rangeErr ctx _ _); run; [reflexivity|].
  rewrite (drainCTI_pure ctx _ _ st'), (drainCTI_pure ctx _ _ st). reflexivity.
Qed.

Lemma GetAllCTIItems_state ctx st : snd (GetAllCTIItems ctx st) = st.
Proof. now rewrite (GetAllCTIItems_scan ctx st st eq_refl). Qed.

(** What [GetAllCTIItems] returns are the decoded entries of its range, in
    key order. *)
Lemma GetAllCTIItems_Ok ctx st items st' :
  GetAllCTIItems ctx st = (Ok items, st') ->
  items = decodedItems (scan "CTI_0" "CTI_999999" st).
Proof.
  intros H. unfold GetAllCTIItems in H. run.
  destruct (rangeErr ctx _ _); run; tidy. now apply drainCTI_Ok in H.
Qed.

Lemma GetAllReviewData_scan ctx st st' :
  scan "Review_" "Review_z" st' = scan "Review_" "Review_z" st ->
  GetAllReviewData ctx st' = (fst (GetAllReviewData ctx st), st').
Proof.
  intros Hs. unfold GetAllReviewData. run. rewrite Hs.
  destruct (rangeErr ctx _ _); run; [reflexivity|].
  rewrite (drainReviews_pure ctx _ _ st'), (drainReviews_pure ctx _ _ st). reflexivity.
Qed.

Lemma GetAllReviewData_state ctx st : snd (GetAllReviewData ctx st) = st.
Proof. now rewrite (GetAllReviewData_scan ctx st st eq_refl). Qed.

Lemma GetReviewDataByCTIDataID_scan ctx ctiDataID st st' :
  scan "Review_" "Review_z" st' = scan "Review_" "Review_z" st ->
  GetReviewDataByCTIDataID ctx ctiDataID st' =
    (fst (GetReviewDataByCTIDataID ctx ctiDataID st), st').
Proof.
  intros Hs. unfold GetReviewDataByCTIDataID, bind, orWrap, ret.
  rewrite (GetAllReviewData_scan ctx st st' Hs).
  pose proof (GetAllReviewData_state ctx st) as Hst.
  destruct (GetAllReviewData ctx st) as [[l|e] st0]; reflexivity.
Qed.

(** ** What a successful call says about its run *)

Lemma GetUserData_inv ctx st u st1 :
  GetUserData ctx st = (Ok u, st1) ->
  exists peerID,
    GetID ctx = (peerID, None) /\
    getStateErr ctx ("UserData_" ++ peerID) = None /\
    ((lookup ("UserData_" ++ peerID) st = None /\
      u = UserData.mk peerID 0 0 0 0 0 /\
      st1 = store ("UserData_" ++ peerID) (UserData.Marshal u) st) \/
     (exists b, lookup ("UserData_" ++ peerID) st = Some b /\
                UserData.Unmarshal b = (u, None) /\ st1 = st)).
Proof.
  intros H. unfold GetUserData in H. run.
  destruct (GetID ctx) as [peerID [e|]]; run; tidy.
  exists peerID. split; [reflexivity|].
  destruct (getStateErr ctx _) eqn:Hget; run; tidy. split; [reflexivity|].
  destruct (lookup _ st) as [b|] eqn:Hl; run.
  - right. exists b. destruct (UserData.Unmarshal b) as [u' [e|]]; run; tidy. auto.
  - left. destruct (putStateErr ctx _); run; tidy. auto.
Qed.

Lemma GetUserData_effect ctx st :
  snd (GetUserData ctx st) = st \/
  snd (GetUserData ctx st) =
    store ("UserData_" ++ fst (GetID ctx))
          (UserData.Marshal (UserData.mk (fst (GetID ctx)) 0 0 0 0 0)) st.
Proof.
  unfold GetUserData. run. destruct (GetID ctx) as [peerID [e|]]; run; auto.
  destruct (getStateErr ctx _); run; auto.
  destruct (lookup _ st); run.
  - destruct (UserData.Unmarshal b) as [u [e|]]; run; auto.
  - destruct (putStateErr ctx _); run; auto.
Qed.

Lemma UpdateUserData_inv ctx uploadCount points subscribed balance st r st' :
  UpdateUserData ctx uploadCount points subscribed balance st = (Ok r, st') ->
  exists peerID b existing,
    GetID ctx = (peerID, None) /\
    getStateErr ctx ("UserData_" ++ peerID) = None /\
    lookup ("UserData_" ++ peerID) st = Some b /\
    UserData.Unmarshal b = (existing, None) /\
    st' = store ("UserData_" ++ peerID)
                (UserData.Marshal
                   (UserData.mk (UserData.ID existing) (UserData.UserLevel existing)
                                uploadCount points subscribed balance)) st.
Proof.
  intros H. unfold UpdateUserData in H. run.
  destruct (GetID ctx) as [peerID [e|]]; run; tidy.
  destruct (getStateErr ctx _) eqn:Hget; run; tidy.
  destruct (lookup _ st) as [b|] eqn:Hl; run; tidy.
  destruct (UserData.Unmarshal b) as [u' [e|]] eqn:Hu; run; tidy.
  destruct (putStateErr ctx _); run; tidy.
  exists peerID, b, u'. auto.
Qed.

Lemma DeleteCTIItemByID_inv ctx id st r st' :
  DeleteCTIItemByID ctx id st = (Ok r, st') ->
  lookup ("CTI_" ++ id) st <> None /\ st' = remove ("CTI_" ++ id) st.
Proof.
  intros H. unfold DeleteCTIItemByID in H. run.
  destruct (getStateErr ctx _); run; tidy.
  destruct (lookup _ st) eqn:Hl; run; tidy.
  destruct (delStateErr ctx _); run; tidy. split; [discriminate|reflexivity].
Qed.

(** ** Allocation of IDs *)

(** The allocator of the reviews hands a failed read of its counter to the
    caller and writes nothing. *)
Lemma generateUniqueID_read_error ctx prefix e st :
  getStateErr ctx ("latestID_" ++ prefix) = Some e ->
  generateUniqueID ctx prefix st =
    (Err (wrapError ("failed to read latest ID for prefix " ++ prefix ++ ": ") e), st).
Proof. intros Hget. unfold generateUniqueID. run. now rewrite Hget. Qed.

Lemma AddReviewData_read_error ctx ctiDataID accuracy timeliness completeness consistency
      reviewText e st :
  snd (GetID ctx) = None ->
  getStateErr ctx ("CTI_" ++ ctiDataID) = None ->
  lookup ("CTI_" ++ ctiDataID) st <> None ->
  getStateErr ctx "latestID_Review" = Some e ->
  AddReviewData ctx ctiDataID accuracy timeliness completeness consistency reviewText st =
    (Err (wrapError "failed to generate review ID: "
            (wrapError "failed to read latest ID for prefix Review: " e)), st).
Proof.
  intros Hid Hget Hl Hctr. unfold AddReviewData. run.
  destruct (GetID ctx) as [peerID [e'|]]; run; [discriminate|].
  rewrite Hget. run. destruct (lookup _ st); [|congruence]. run.
  pose proof (generateUniqueID_read_error ctx "Review" e st Hctr) as Hg. run.
  now rewrite Hg.
Qed.

(** C1 (fails on [AddCTIItem]).  When the read of [latestID] fails,
    [AddCTIItem] does not return the error: it goes on as if there were no
    counter, writes the item under [CTI_1] with ID 1, sets the counter to
    1 and returns [nil]. *)
Theorem AddCTIItem_ignores_failed_counter_read
    ctx uploader e name timestamp cid encryptKey points level st :
  GetID ctx = (uploader, None) ->
  getStateErr ctx "latestID" = Some e ->
  putStateErr ctx "CTI_1" = None ->
  putStateErr ctx "latestID" = None ->
  AddCTIItem ctx name timestamp cid encryptKey points level st =
    (Ok tt,
     store "latestID" (Text "1")
       (store "CTI_1"
          (CTIData.Marshal
             (CTIData.mk "1" name uploader timestamp cid encryptKey points level)) st)).
Proof.
  intros Hid Hget Hput1 Hput2. unfold AddCTIItem. run.
  rewrite Hid. run. rewrite Hget. run. change (Itoa 1) with "1". run.
  rewrite Hput1. run. rewrite Hput2. reflexivity.
Qed.

(** On a ledger with five items the failed read costs item 1 and the
    counter. *)
Lemma AddCTIItem_ignores_failed_counter_read_witness :
  AddCTIItem (readFails "alice" "latestID" (errorString "timeout")) "new" 9 "cid9" "k9" 3 1
             ledgerOfFive =
    (Ok tt,
     store "latestID" (Text "1")
       (store "CTI_1"
          (CTIData.Marshal (CTIData.mk "1" "new" "alice" 9 "cid9" "k9" 3 1)) ledgerOfFive)).
Proof.
  apply (AddCTIItem_ignores_failed_counter_read
           (readFails "alice" "latestID" (errorString "timeout")) "alice"
           (errorString "timeout")); reflexivity.
Defined.

Example failed_read_overwrites_item_1 :
  let st' := snd (AddCTIItem (readFails "alice" "latestID" (errorString "timeout"))
                             "new" 9 "cid9" "k9" 3 1 ledgerOfFive) in
  counter ledgerOfFive = Some (Text "5") /\
  fst (GetCTIItem (honest "bob") 1 ledgerOfFive) = Ok (CTIData.mk "1" "a" "bob" 1 "cid1" "k1" 1 2) /\
  counter st' = Some (Text "1") /\
  fst (GetCTIItem (honest "bob") 1 st') = Ok (CTIData.mk "1" "new" "alice" 9 "cid9" "k9" 3 1).
Proof. repeat split. Qed.

(** C2 (as stated, fails).  Neither transaction hands the new ID back: the
    returned value is the same for calls that allocate different IDs. *)
Theorem Add_transactions_return_no_ID :
  ~ AddCTIItem_returns_ID /\ ~ AddReviewData_returns_ID.
Proof.
  split; intros [idOf H].
  - pose proof (H (honest "alice") "n" 0%Z "c" "k" 0%Z 0%Z [] tt _ eq_refl) as H1.
    pose proof (H (honest "alice") "n" 0%Z "c" "k" 0%Z 0%Z
                  [("CTI_1", Text "x"); ("latestID", Text "1")] tt _ eq_refl) as H2.
    vm_compute in H1, H2. congruence.
  - pose proof (H (honest "alice") "1" 0%Z 0%Z 0%Z 0%Z "t"
                  [("CTI_1", Text "x")] tt _ eq_refl) as H1.
    pose proof (H (honest "alice") "1" 0%Z 0%Z 0%Z 0%Z "t"
                  [("CTI_1", Text "x"); ("latestID_Review", Text "1")] tt _ eq_refl) as H2.
    vm_compute in H1, H2. congruence.
Qed.

(** C2 (amended).  [AddCTIItem] and [AddReviewData] return an error result
    only.  After a call that returned [nil] the new ID is on the ledger:
    the counter holds it, and the entity is stored under the key made
    from it with the ID in its [ID] field. *)
Theorem Add_transactions_record_ID_on_ledger :
  (forall ctx name timestamp cid encryptKey points level st r st',
      AddCTIItem ctx name timestamp cid encryptKey points level st = (Ok r, st') ->
      r = tt /\
      exists latestID : int,
        lookup "latestID" st' = Some (Text (Itoa latestID)) /\
        lookup ("CTI_" ++ Itoa latestID) st' =
          Some (CTIData.Marshal
                  (CTIData.mk (Itoa latestID) name (fst (GetID ctx)) timestamp cid
                              encryptKey points level))) /\
  (forall ctx ctiDataID accuracy timeliness completeness consistency reviewText st r st',
      AddReviewData ctx ctiDataID accuracy timeliness completeness consistency reviewText st
        = (Ok r, st') ->
      r = tt /\
      exists latestID : int,
        lookup "latestID_Review" st' = Some (Text (Itoa latestID)) /\
        lookup ("Review_Review_" ++ Itoa latestID) st' =
          Some (ReviewData.Marshal
                  (ReviewData.mk ("Review_" ++ Itoa latestID) (fst (GetID ctx)) ctiDataID
                                 accuracy timeliness completeness consistency reviewText))).
Proof.
  split.
  - intros ctx name timestamp cid encryptKey points level st r st' H.
    split; [now destruct r|].
    unfold AddCTIItem in H. go.
    all: eexists; split; [apply lookup_store_eq|];
      (rewrite lookup_store_neq by discriminate); apply lookup_store_eq.
  - intros ctx ctiDataID accuracy timeliness completeness consistency reviewText st r st' H.
    split; [now destruct r|].
    unfold AddReviewData, generateUniqueID in H. go.
    all: eexists; split;
      [rewrite lookup_store_neq by discriminate; apply lookup_store_eq|];
      apply lookup_store_eq.
Qed.

Lemma Add_transactions_record_ID_on_ledger_witness :
  (tt = tt /\
   exists latestID : int,
     lookup "latestID" (snd (AddCTIItem (honest "alice") "f" 6 "cid6" "k6" 1 0 ledgerOfFive))
       = Some (Text (Itoa latestID)) /\
     lookup ("CTI_" ++ Itoa latestID)
            (snd (AddCTIItem (honest "alice") "f" 6 "cid6" "k6" 1 0 ledgerOfFive))
       = Some (CTIData.Marshal (CTIData.mk (Itoa latestID) "f" "alice" 6 "cid6" "k6" 1 0))) /\
  (tt = tt /\
   exists latestID : int,
     lookup "latestID_Review"
            (snd (AddReviewData (honest "alice") "2" 5 4 3 2 "useful" ledgerOfFive))
       = Some (Text (Itoa latestID)) /\
     lookup ("Review_Review_" ++ Itoa latestID)
            (snd (AddReviewData (honest "alice") "2" 5 4 3 2 "useful" ledgerOfFive))
       = Some (ReviewData.Marshal
                 (ReviewData.mk ("Review_" ++ Itoa latestID) "alice" "2" 5 4 3 2 "useful"))).
Proof.
  destruct Add_transactions_record_ID_on_ledger as [HItem HReview]. split.
  - apply (HItem (honest "alice") "f" 6%Z "cid6" "k6" 1%Z 0%Z ledgerOfFive tt). reflexivity.
  - apply (HReview (honest "alice") "2" 5%Z 4%Z 3%Z 2%Z "useful" ledgerOfFive tt). reflexivity.
Defined.

(** ** The range of [GetAllCTIItems] *)

(** On a ledger whose counter stands at 999998 the next item goes under
    [CTI_999999], and the range of the listing has not changed. *)
Lemma GetAllCTIItems_after_999998 ctx ctx' name timestamp cid encryptKey points level
      st r st' :
  getStateErr ctx "latestID" = None ->
  lookup "latestID" st = Some (Text "999998") ->
  AddCTIItem ctx name timestamp cid encryptKey points level st = (Ok r, st') ->
  lookup "CTI_999999" st' =
    Some (CTIData.Marshal
            (CTIData.mk "999999" name (fst (GetID ctx)) timestamp cid encryptKey points level)) /\
  GetAllCTIItems ctx' st' = (fst (GetAllCTIItems ctx' st), st').
Proof.
  intros Hget Hc H. unfold AddCTIItem in H. run.
  destruct (GetID ctx) as [uploader [e|]]; run; tidy.
  rewrite Hget in H. run. rewrite Hc in H. run.
  change (Itoa (incr 999998)) with "999999" in H. go.
  split.
  - rewrite lookup_store_neq by discriminate. apply lookup_store_eq.
  - apply GetAllCTIItems_scan. now rewrite !scan_store_outside by reflexivity.
Qed.

(** C3 (fails on the code).  On any ledger whose counter stands at
    999998, the item of the next [AddCTIItem] takes ID 999999 and is
    stored under [CTI_999999], the end key of the range scan, which the
    scan leaves out: [GetCTIItem] returns the item (its strings as the
    encoder left them), and [GetAllCTIItems] returns what it returned
    before the item was added. *)
Theorem GetAllCTIItems_misses_ID_999999
    ctx ctx' name timestamp cid encryptKey points level st r st' :
  getStateErr ctx "latestID" = None ->
  lookup "latestID" st = Some (Text "999998") ->
  AddCTIItem ctx name timestamp cid encryptKey points level st = (Ok r, st') ->
  getStateErr ctx' "CTI_999999" = None ->
  GetCTIItem ctx' 999999 st' =
    (Ok (CTIData.coerced
           (CTIData.mk "999999" name (fst (GetID ctx)) timestamp cid encryptKey points level)),
     st') /\
  GetAllCTIItems ctx' st' = (fst (GetAllCTIItems ctx' st), st').
Proof.
  intros Hget Hc H Hget'.
  destruct (GetAllCTIItems_after_999998 ctx ctx' _ _ _ _ _ _ _ _ _ Hget Hc H) as [Hl Hall].
  split; [|exact Hall].
  unfold GetCTIItem. change (Itoa 999999) with "999999".
  change ("CTI_" ++ "999999") with "CTI_999999".
  unfold bind, GetState, ifErr, ret, fail.
  rewrite Hget', Hl, CTIData_roundtrip. reflexivity.
Qed.

(** With nothing but the counter on the ledger: the item is stored and
    found, and the listing is empty. *)
Lemma GetAllCTIItems_misses_ID_999999_witness :
  let st := [("latestID", Text "999998")] in
  let item := CTIData.mk "999999" "report" "alice" 7 "cid" "key" 1 0 in
  let st' := [("CTI_999999", CTIData.Marshal item); ("latestID", Text "999999")] in
  AddCTIItem (honest "alice") "report" 7 "cid" "key" 1 0 st = (Ok tt, st') /\
  GetCTIItem (honest "alice") 999999 st' = (Ok item, st') /\
  GetAllCTIItems (honest "alice") st' = (Ok [], st').
Proof.
  intros st item st'. split; [reflexivity|].
  apply (GetAllCTIItems_misses_ID_999999 (honest "alice") (honest "alice")
           "report" 7%Z "cid" "key" 1%Z 0%Z st tt st'); reflexivity.
Defined.

(** Longer IDs that begin with 999999 are outside the range as well. *)
Example range_excludes :
  map (fun n => inRange "CTI_0" "CTI_999999" ("CTI_" ++ Itoa n))
      [1; 10; 999998; 999999; 1000000; 9999989; 9999990; 99999900]%Z
  = [true; true; true; false; true; true; false; false].
Proof. reflexivity. Qed.

(** ** Sequences of [AddCTIItem] *)

Lemma AddItem_next ctx a st n r st' :
  counterAt n st -> (0 <= n < maxInt)%Z ->
  getStateErr ctx "latestID" = None ->
  AddItem ctx a st = (Ok r, st') ->
  counterAt (n + 1) st' /\
  lookup ("CTI_" ++ Itoa (n + 1)) st' =
    Some (CTIData.Marshal
            (CTIData.mk (Itoa (n + 1)) (a_name a) (fst (GetID ctx)) (a_timestamp a) (a_cid a)
                        (a_encryptKey a) (a_points a) (a_level a))).
Proof.
  intros Hc Hn Hget H. unfold AddItem, AddCTIItem in H. run.
  destruct (GetID ctx) as [uploader [e|]]; run; tidy.
  rewrite Hget in H. run. unfold counterAt, counter in *.
  destruct Hc as [[-> Hc]|[Hpos Hc]]; rewrite Hc in H; run.
  - change (Itoa 1) with "1" in H. go. split.
    + right. split; [lia|]. apply lookup_store_eq.
    + rewrite lookup_store_neq by discriminate. apply lookup_store_eq.
  - rewrite Atoi_Itoa in H by (apply inInt_iff; unfold minInt, maxInt in *; lia).
    run. rewrite incr_succ in H by (unfold minInt, maxInt in *; lia). go. split.
    + right. split; [lia|]. apply lookup_store_eq.
    + rewrite lookup_store_neq by discriminate. apply lookup_store_eq.
Qed.

(** When no read of the counter fails, the calls that return [nil] take
    the IDs that follow the counter, one after the other. *)
Lemma AddItems_counters calls : forall st n,
  counterAt n st -> (0 <= n)%Z -> (n + Z.of_nat (length calls) <= maxInt)%Z ->
  Forall (fun c => getStateErr (fst c) "latestID" = None) calls ->
  forallb succeeded (AddItems calls st) = true ->
  map (fun r => counter (snd r)) (AddItems calls st) =
  map (fun k => Some (Text (Itoa (n + Z.of_nat k)))) (seq 1 (length calls)).
Proof.
  induction calls as [|[ctx a] rest IH]; intros st n Hc Hn Hlen Hread Hok; [reflexivity|].
  cbn [AddItems length] in *. inv Hread. cbn [fst] in *.
  cbn [forallb map seq] in *. apply andb_true_iff in Hok as [Hok1 Hok2].
  destruct (AddItem ctx a st) as [[r|e] st'] eqn:E; [|discriminate]. cbn [snd] in *.
  destruct (AddItem_next ctx a st n r st' Hc ltac:(lia) H1 E) as [Hc' _].
  f_equal.
  - destruct Hc' as [[? _]|[_ ->]]; [lia|]. reflexivity.
  - rewrite (IH st' (n + 1)%Z Hc' ltac:(lia) ltac:(lia) H2 Hok2).
    rewrite <- (seq_shift _ 1), map_map. apply map_ext. intros k. do 3 f_equal. lia.
Qed.

(** From the empty ledger: the counter after the k-th call is k. *)
Corollary AddItems_from_empty calls :
  (Z.of_nat (length calls) <= maxInt)%Z ->
  Forall (fun c => getStateErr (fst c) "latestID" = None) calls ->
  forallb succeeded (AddItems calls []) = true ->
  map (fun r => counter (snd r)) (AddItems calls []) =
  map (fun k => Some (Text (Itoa (Z.of_nat k)))) (seq 1 (length calls)).
Proof.
  intros Hlen Hread Hok.
  apply (AddItems_counters calls [] 0%Z); auto; [now left|lia].
Qed.

Lemma last_cons {A} (l : list A) : forall x d, last (x :: l) d = last l x.
Proof.
  induction l as [|y l IH]; intros x d; [reflexivity|].
  change (last (x :: y :: l) d) with (last (y :: l) d). now rewrite !IH.
Qed.

Lemma AddItems_app calls1 : forall calls2 st,
  AddItems (calls1 ++ calls2) st =
  (AddItems calls1 st ++ AddItems calls2 (finalState (AddItems calls1 st) st))%list.
Proof.
  induction calls1 as [|[ctx a] rest IH]; intros calls2 st; [reflexivity|].
  cbn [AddItems app]. rewrite IH. unfold finalState. cbn [map].
  now rewrite last_cons.
Qed.

(** The call with the failing read, on any ledger. *)
Lemma AddItem_failed_read ctx a uploader e st :
  GetID ctx = (uploader, None) ->
  getStateErr ctx "latestID" = Some e ->
  putStateErr ctx "CTI_1" = None ->
  putStateErr ctx "latestID" = None ->
  fst (AddItem ctx a st) = Ok tt /\ counter (snd (AddItem ctx a st)) = Some (Text "1").
Proof.
  intros Hid Hget Hput1 Hput2. unfold AddItem, AddCTIItem. run.
  rewrite Hid. run. rewrite Hget. run. change (Itoa 1) with "1". run.
  rewrite Hput1. run. rewrite Hput2. run. split; [reflexivity|].
  unfold counter. apply lookup_store_eq.
Qed.

(** C4 (fails on the code).  After any sequence of calls from the empty
    ledger that returned [nil] and took the counter values 1, 2, ..., a call
    in which the read of the counter fails returns [nil] too and takes
    the counter value 1: an ID that is in use, and a stored counter that
    has gone down. *)
Theorem AddItems_counter_goes_back_on_failed_read calls ctx a uploader e :
  Forall (fun c => getStateErr (fst c) "latestID" = None) calls ->
  forallb succeeded (AddItems calls []) = true ->
  (Z.of_nat (length calls) <= maxInt)%Z ->
  GetID ctx = (uploader, None) ->
  getStateErr ctx "latestID" = Some e ->
  putStateErr ctx "CTI_1" = None ->
  putStateErr ctx "latestID" = None ->
  let trace := AddItems (calls ++ [(ctx, a)]) [] in
  forallb succeeded trace = true /\
  map (fun r => counter (snd r)) trace =
    (map (fun k => Some (Text (Itoa (Z.of_nat k)))) (seq 1 (length calls))
       ++ [Some (Text "1")])%list.
Proof.
  intros Hread Hok Hlen Hid Hget Hput1 Hput2 trace. subst trace.
  rewrite AddItems_app. cbn [AddItems].
  destruct (AddItem_failed_read ctx a uploader e (finalState (AddItems calls []) [])
              Hid Hget Hput1 Hput2) as [Hr Hc].
  split.
  - rewrite forallb_app, Hok. cbn [forallb]. unfold succeeded. now rewrite Hr.
  - rewrite map_app, (AddItems_from_empty calls Hlen Hread Hok). cbn [map]. now rewrite Hc.
Qed.


(** Two calls, then one with the failing read: the counter values are
    1, 2 and 1 again. *)
Lemma AddItems_counter_goes_back_on_failed_read_witness :
  let trace :=
    AddItems ([(honest "alice", report); (honest "alice", report)]
                ++ [(readFails "alice" "latestID" (errorString "timeout"), report)]) [] in
  forallb succeeded trace = true /\
  map (fun r => counter (snd r)) trace =
    [Some (Text "1"); Some (Text "2"); Some (Text "1")].
Proof.
  apply (AddItems_counter_goes_back_on_failed_read
           [(honest "alice", report); (honest "alice", report)]
           (readFails "alice" "latestID" (errorString "timeout")) report "alice"
           (errorString "timeout")); try reflexivity.
  - repeat constructor.
  - vm_compute. discriminate.
Defined.

(** ** Transactions on an item that is not there *)

(** C5.  With no item under [CTI_<id>], [UpdateCTIItem] and
    [AddReviewData] return an error and leave the world state as it is
    (no item or review written, no counter moved); when the identity
    resolves and the read does not fail, the error is the one that says
    the item does not exist. *)
Theorem absent_item_error_and_no_write
    ctx id name timestamp cid encryptKey points level
    ctiDataID accuracy timeliness completeness consistency reviewText st :
  (lookup ("CTI_" ++ id) st = None ->
   (exists e, UpdateCTIItem ctx id name timestamp cid encryptKey points level st = (Err e, st)) /\
   (snd (GetID ctx) = None -> getStateErr ctx ("CTI_" ++ id) = None ->
    UpdateCTIItem ctx id name timestamp cid encryptKey points level st =
      (Err (errorString ("CTI item with ID " ++ id ++ " does not exist")), st))) /\
  (lookup ("CTI_" ++ ctiDataID) st = None ->
   (exists e, AddReviewData ctx ctiDataID accuracy timeliness completeness consistency
                            reviewText st = (Err e, st)) /\
   (snd (GetID ctx) = None -> getStateErr ctx ("CTI_" ++ ctiDataID) = None ->
    AddReviewData ctx ctiDataID accuracy timeliness completeness consistency reviewText st =
      (Err (errorString ("CTI item with ID " ++ ctiDataID ++ " does not exist")), st))).
Proof.
  split; intros Habs; (split; [|intros Hid Hget]).
  - unfold UpdateCTIItem. run. destruct (GetID ctx) as [uploader [e|]]; run; [eauto|].
    destruct (getStateErr ctx _); run; [eauto|]. rewrite Habs. eauto.
  - unfold UpdateCTIItem. run. destruct (GetID ctx) as [uploader [e|]]; run; [discriminate|].
    rewrite Hget. run. now rewrite Habs.
  - unfold AddReviewData. run. destruct (GetID ctx) as [uploader [e|]]; run; [eauto|].
    destruct (getStateErr ctx _); run; [eauto|]. rewrite Habs. eauto.
  - unfold AddReviewData. run. destruct (GetID ctx) as [uploader [e|]]; run; [discriminate|].
    rewrite Hget. run. now rewrite Habs.
Qed.

Lemma absent_item_error_and_no_write_witness :
  UpdateCTIItem (honest "alice") "7" "g" 8 "cid" "k" 1 0 ledgerOfFive =
    (Err (errorString "CTI item with ID 7 does not exist"), ledgerOfFive) /\
  AddReviewData (honest "alice") "7" 5 4 3 2 "useful" ledgerOfFive =
    (Err (errorString "CTI item with ID 7 does not exist"), ledgerOfFive).
Proof.
  destruct (absent_item_error_and_no_write (honest "alice") "7" "g" 8%Z "cid" "k" 1%Z 0%Z
              "7" 5%Z 4%Z 3%Z 2%Z "useful" ledgerOfFive) as [HUpdate HReview].
  split.
  - apply HUpdate; reflexivity.
  - apply HReview; reflexivity.
Defined.

(** ** User records on reachable ledgers *)

Lemma plain_store_other key value st :
  (forall id, key <> "UserData_" ++ id) ->
  userRecordsPlain st -> userRecordsPlain (store key value st).
Proof.
  intros Hk Hst id v Hin. apply In_store in Hin as [Heq|Hin].
  - inversion Heq as [[Hkey Hv]]. now destruct (Hk id).
  - now apply Hst.
Qed.

Lemma plain_store_user id u st :
  UserData.ID u = id -> UserData.UserLevel u = 0%Z ->
  userRecordsPlain st -> userRecordsPlain (store ("UserData_" ++ id) (UserData.Marshal u) st).
Proof.
  intros Hid Hlvl Hst id' v Hin. apply In_store in Hin as [Heq|Hin].
  - inversion Heq as [[Hk Hv]]. subst id'. now exists u.
  - now apply Hst.
Qed.

Lemma plain_remove key st : userRecordsPlain st -> userRecordsPlain (remove key st).
Proof. intros Hst id v Hin. apply In_remove in Hin. now apply Hst. Qed.

Lemma plain_lookup id b st :
  userRecordsPlain st ->
  lookup ("UserData_" ++ id) st = Some b ->
  exists u, b = UserData.Marshal u /\ UserData.Unmarshal b = (u, None) /\
            UserData.ID u = id /\ UserData.UserLevel u = 0%Z.
Proof.
  intros Hst Hl. apply lookup_In in Hl. destruct (Hst _ _ Hl) as (u & -> & Hid & Hlvl).
  exists u. now rewrite UserData_roundtrip.
Qed.

Lemma lookup_store_some key key' value st :
  lookup key st <> None -> lookup key (store key' value st) <> None.
Proof.
  intros H. destruct (String.eqb_spec key key') as [->|Hne].
  - now rewrite lookup_store_eq.
  - now rewrite lookup_store_neq.
Qed.

Ltac plain :=
  repeat first
    [ assumption
    | apply plain_remove
    | apply plain_store_other; [intros ? ?; discriminate|]
    | apply plain_store_user; [reflexivity|reflexivity|] ].

(** Every transaction keeps the user records plain. *)
Lemma invoke_plain ctx i st : userRecordsPlain st -> userRecordsPlain (invoke ctx i st).
Proof.
  intros Hst. destruct i; unfold invoke.
  - unfold AddCTIItem. go; plain.
  - unfold UpdateCTIItem. go; plain.
  - unfold GetCTIItem. go; plain.
  - now rewrite GetAllCTIItems_state.
  - unfold AddUserData. go; plain.
  - unfold GetUserDataOld. go; plain.
  - destruct (GetUserData_effect ctx st) as [->| ->]; plain.
  - unfold UpdateUserData. run.
    destruct (GetID ctx) as [peerID [e|]]; run; [assumption|].
    destruct (getStateErr ctx _); run; [assumption|].
    destruct (lookup _ st) as [b|] eqn:Hl; run; [|assumption].
    destruct (plain_lookup peerID _ _ Hst Hl) as (u & _ & Hu & Hid & Hlvl). run.
    rewrite Hu. run.
    destruct (putStateErr ctx _); run; [assumption|].
    rewrite Hlvl, Hid.
    now apply (plain_store_user peerID
                 (UserData.mk peerID 0 uploadCount points subscribed balance)).
  - unfold AddReviewData, generateUniqueID. go; plain.
  - now rewrite GetAllReviewData_state.
  - unfold GetReviewDataByCTIDataID, bind, orWrap, ret.
    pose proof (GetAllReviewData_state ctx st).
    destruct (GetAllReviewData ctx st) as [[l|e] st0]; cbn [snd] in *; now subst.
  - unfold GetCTIItemsFilteredBySubscriptionLevel, bind, orWrap, ret.
    pose proof (GetAllCTIItems_state ctx st) as Hs.
    destruct (GetAllCTIItems ctx st) as [[l|e] st0]; cbn [snd] in *; subst st0; [|assumption].
    pose proof (GetUserData_effect ctx st) as Hu.
    destruct (GetUserData ctx st) as [[u|e] st0]; cbn [snd] in *;
      destruct Hu as [->| ->]; plain.
  - unfold DeleteCTIItemByID. go; plain.
Qed.

Lemma reachable_plain st : reachable st -> userRecordsPlain st.
Proof.
  induction 1 as [|ctx i st _ IH].
  - intros id v [].
  - now apply invoke_plain.
Qed.

Lemma invoke_evolves ctx i st : evolves st (invoke ctx i st).
Proof.
  destruct i; unfold invoke.
  - unfold AddCTIItem. go; repeat constructor.
  - unfold UpdateCTIItem. go; repeat constructor.
  - unfold GetCTIItem. go; repeat constructor.
  - rewrite GetAllCTIItems_state. constructor.
  - unfold AddUserData. go; repeat constructor.
  - unfold GetUserDataOld. go; repeat constructor.
  - destruct (GetUserData_effect ctx st) as [->| ->]; repeat constructor.
  - unfold UpdateUserData. go; repeat constructor.
  - unfold AddReviewData, generateUniqueID. go; repeat constructor.
  - rewrite GetAllReviewData_state. constructor.
  - unfold GetReviewDataByCTIDataID, bind, orWrap, ret.
    pose proof (GetAllReviewData_state ctx st).
    destruct (GetAllReviewData ctx st) as [[l|e] st0]; cbn [snd] in *; subst; constructor.
  - unfold GetCTIItemsFilteredBySubscriptionLevel, bind, orWrap, ret.
    pose proof (GetAllCTIItems_state ctx st) as Hs.
    destruct (GetAllCTIItems ctx st) as [[l|e] st0]; cbn [snd] in *; subst st0;
      [|constructor].
    pose proof (GetUserData_effect ctx st) as Hu.
    destruct (GetUserData ctx st) as [[u|e] st0]; cbn [snd] in *;
      destruct Hu as [->| ->]; repeat constructor.
  - unfold DeleteCTIItemByID. go.
    all: try apply (evolves_remove _ id); repeat constructor.
Qed.

(** No transaction removes a user record. *)
Lemma evolves_keeps_users st st' id :
  evolves st st' ->
  lookup ("UserData_" ++ id) st <> None -> lookup ("UserData_" ++ id) st' <> None.
Proof.
  induction 1 as [|key value st' _ IH|id' st' _ IH]; intros Hl.
  - assumption.
  - apply lookup_store_some. now apply IH.
  - rewrite lookup_remove_neq by discriminate. now apply IH.
Qed.

Lemma reachable_ledgerOfFive : reachable ledgerOfFive.
Proof.
  apply (reachable_invoke (honest "bob") (InvAddCTIItem "e" 5 "cid5" "k5" 1 0)).
  apply (reachable_invoke (honest "bob") (InvAddCTIItem "d" 4 "cid4" "k4" 1 0)).
  apply (reachable_invoke (honest "bob") (InvAddCTIItem "c" 3 "cid3" "k3" 1 0)).
  apply (reachable_invoke (honest "bob") (InvAddCTIItem "b" 2 "cid2" "k2" 1 0)).
  apply (reachable_invoke (honest "bob") (InvAddCTIItem "a" 1 "cid1" "k1" 1 2)).
  constructor.
Qed.

(** ** Key order *)

Lemma sortedKeys_store key value st : sortedKeys st -> sortedKeys (store key value st).
Proof.
  induction st as [|[k v] rest IH]; simpl; [auto|].
  intros [Hhd Htl].
  destruct (String.eqb_spec key k) as [->|Hne]; [simpl; auto|].
  destruct (String.ltb key k) eqn:Hlt; [simpl; auto|].
  assert (Hgt : String.ltb k key = true).
  { unfold String.ltb in *. rewrite String.compare_antisym.
    destruct (String.compare key k) eqn:Hc; try discriminate; try reflexivity.
    apply String.compare_eq_iff in Hc. contradiction. }
  simpl. split; [|auto].
  destruct rest as [|[k' v'] rest']; simpl; [exact Hgt|].
  destruct (key =? k'); [exact Hgt|]. destruct (String.ltb key k'); [exact Hgt|exact Hhd].
Qed.

Lemma ascii_compare_lt_trans a b c :
  Ascii.compare a b = Lt -> Ascii.compare b c = Lt -> Ascii.compare a c = Lt.
Proof.
  unfold Ascii.compare. rewrite !N.compare_lt_iff. apply N.lt_trans.
Qed.

Lemma ltb_trans x : forall y z,
  String.ltb x y = true -> String.ltb y z = true -> String.ltb x z = true.
Proof.
  unfold String.ltb.
  induction x as [|a x IH]; intros [|b y] [|c z]; simpl; try discriminate; auto.
  destruct (Ascii.compare a b) eqn:Hab; try discriminate.
  - apply Ascii.compare_eq_iff in Hab. subst b.
    destruct (Ascii.compare a c); try discriminate; auto. apply IH.
  - intros _. destruct (Ascii.compare b c) eqn:Hbc; try discriminate.
    + apply Ascii.compare_eq_iff in Hbc. subst c. now rewrite Hab.
    + now rewrite (ascii_compare_lt_trans a b c Hab Hbc).
Qed.

(** In a sorted world state every later key is above the first. *)
Lemma sortedKeys_above k v rest :
  sortedKeys ((k, v) :: rest) -> forall kv, In kv rest -> String.ltb k (fst kv) = true.
Proof.
  revert k v. induction rest as [|[k' v'] rest IH]; intros k v [Hhd Htl] kv Hin; [destruct Hin|].
  destruct Hin as [<-|Hin]; [exact Hhd|].
  apply (ltb_trans k k'); [exact Hhd|]. now apply (IH k' v').
Qed.

Lemma sortedKeys_cons k v rest :
  sortedKeys rest -> (forall kv, In kv rest -> String.ltb k (fst kv) = true) ->
  sortedKeys ((k, v) :: rest).
Proof.
  intros Hs Hk. split; [|assumption].
  destruct rest as [|[k' v'] rest']; [exact I|]. apply (Hk (k', v')). now left.
Qed.

Lemma sortedKeys_remove key st : sortedKeys st -> sortedKeys (remove key st).
Proof.
  unfold remove. induction st as [|[k v] rest IH]; intros Hs; [exact I|].
  pose proof (sortedKeys_above _ _ _ Hs) as Habove. destruct Hs as [_ Htl].
  simpl. destruct (negb (key =? k)); [|auto].
  apply sortedKeys_cons; [auto|].
  intros kv Hin. apply filter_In in Hin as [Hin _]. now apply Habove.
Qed.

Lemma evolves_sorted st st' : evolves st st' -> sortedKeys st -> sortedKeys st'.
Proof.
  induction 1; intros Hs; auto using sortedKeys_store, sortedKeys_remove.
Qed.

(** The ledgers of the contract are in key order, which is the order in
    which [GetAllCTIItems] and [GetAllReviewData] list. *)
Lemma reachable_sorted st : reachable st -> sortedKeys st.
Proof.
  induction 1 as [|ctx i st _ IH]; [exact I|].
  exact (evolves_sorted _ _ (invoke_evolves ctx i st) IH).
Qed.

(** ** Accounts *)

(** C6.  For a caller whose identity resolves and whose record can be
    read: with no record stored, [UpdateUserData] returns the error that
    says so and writes nothing; with a record stored, the call succeeds,
    the record stored afterwards has the four fields of the arguments
    and the [ID] of the old record, and no other key changes.  On a
    ledger the contract has brought about, the record written is made of
    the caller's identity and the arguments alone. *)
Theorem UpdateUserData_overwrites_the_record
    ctx peerID uploadCount points subscribed balance st :
  GetID ctx = (peerID, None) ->
  getStateErr ctx ("UserData_" ++ peerID) = None ->
  (lookup ("UserData_" ++ peerID) st = None ->
   UpdateUserData ctx uploadCount points subscribed balance st =
     (Err (errorString ("User data for peer " ++ peerID ++ " does not exist")), st)) /\
  (forall b existing,
     lookup ("UserData_" ++ peerID) st = Some b ->
     UserData.Unmarshal b = (existing, None) ->
     putStateErr ctx ("UserData_" ++ peerID) = None ->
     exists updated st',
       UpdateUserData ctx uploadCount points subscribed balance st = (Ok tt, st') /\
       lookup ("UserData_" ++ peerID) st' = Some (UserData.Marshal updated) /\
       UserData.UploadCount updated = uploadCount /\
       UserData.Points updated = points /\
       UserData.Subscribed updated = subscribed /\
       UserData.Balance updated = balance /\
       UserData.ID updated = UserData.ID existing /\
       (forall key, key <> "UserData_" ++ peerID -> lookup key st' = lookup key st)) /\
  (reachable st ->
   lookup ("UserData_" ++ peerID) st <> None ->
   putStateErr ctx ("UserData_" ++ peerID) = None ->
   UpdateUserData ctx uploadCount points subscribed balance st =
     (Ok tt,
      store ("UserData_" ++ peerID)
            (UserData.Marshal (UserData.mk peerID 0 uploadCount points subscribed balance))
            st)).
Proof.
  intros Hid Hget. split; [|split].
  - intros Habs. unfold UpdateUserData. run. rewrite Hid. run. rewrite Hget. run.
    now rewrite Habs.
  - intros b existing Hb Hdec Hput.
    unfold UpdateUserData. run. rewrite Hid. run. rewrite Hget. run. rewrite Hb. run.
    rewrite Hdec. run. rewrite Hput. run.
    eexists. eexists. split; [reflexivity|]. split; [apply lookup_store_eq|].
    repeat split. intros key Hk. now apply lookup_store_neq.
  - intros Hreach Hsome Hput.
    destruct (lookup ("UserData_" ++ peerID) st) as [b|] eqn:Hb; [|congruence].
    destruct (plain_lookup peerID b st (reachable_plain _ Hreach) Hb)
      as (u & _ & Hdec & Hu & Hlvl).
    unfold UpdateUserData. run. rewrite Hid. run. rewrite Hget. run. rewrite Hb. run.
    rewrite Hdec. run. rewrite Hput. run. now rewrite Hu, Hlvl.
Qed.

Lemma UpdateUserData_overwrites_the_record_witness :
  let st := snd (AddUserData (honest "bob") 3 30 1 100 ledgerOfFive) in
  UpdateUserData (honest "carol") 4 40 2 90 st =
    (Err (errorString "User data for peer carol does not exist"), st) /\
  (exists updated st',
      UpdateUserData (honest "bob") 4 40 2 90 st = (Ok tt, st') /\
      lookup "UserData_bob" st' = Some (UserData.Marshal updated) /\
      UserData.UploadCount updated = 4%Z /\
      UserData.Points updated = 40%Z /\
      UserData.Subscribed updated = 2%Z /\
      UserData.Balance updated = 90%Z /\
      UserData.ID updated = "bob" /\
      (forall key, key <> "UserData_bob" -> lookup key st' = lookup key st)) /\
  UpdateUserData (honest "bob") 4 40 2 90 st =
    (Ok tt, store "UserData_bob" (UserData.Marshal (UserData.mk "bob" 0 4 40 2 90)) st).
Proof.
  intros st. split; [|split].
  - apply (UpdateUserData_overwrites_the_record (honest "carol") "carol" 4%Z 40%Z 2%Z 90%Z st);
      reflexivity.
  - apply (proj1 (proj2 (UpdateUserData_overwrites_the_record
                           (honest "bob") "bob" 4%Z 40%Z 2%Z 90%Z st eq_refl eq_refl))
             (UserData.Marshal (UserData.mk "bob" 0 3 30 1 100))
             (UserData.mk "bob" 0 3 30 1 100)); reflexivity.
  - apply (UpdateUserData_overwrites_the_record (honest "bob") "bob" 4%Z 40%Z 2%Z 90%Z st);
      try reflexivity.
    + apply (reachable_invoke (honest "bob") (InvAddUserData 3 30 1 100)).
      apply reachable_ledgerOfFive.
    + discriminate.
Defined.

(** C7.  For a caller with no stored record, [GetUserData] stores the
    record of the caller with all counts zero and returns it; the record
    is on the ledger afterwards, and the next [GetUserData] of the same
    caller returns the same record and writes nothing. *)
Theorem GetUserData_creates_the_zero_record ctx ctx' peerID st :
  GetID ctx = (peerID, None) -> GetID ctx' = (peerID, None) ->
  getStateErr ctx ("UserData_" ++ peerID) = None ->
  putStateErr ctx ("UserData_" ++ peerID) = None ->
  getStateErr ctx' ("UserData_" ++ peerID) = None ->
  lookup ("UserData_" ++ peerID) st = None ->
  let zeroAccount := UserData.mk peerID 0 0 0 0 0 in
  exists st',
    GetUserData ctx st = (Ok zeroAccount, st') /\
    lookup ("UserData_" ++ peerID) st' = Some (UserData.Marshal zeroAccount) /\
    GetUserDataOld ctx' peerID st' = (Ok zeroAccount, st') /\
    GetUserData ctx' st' = (Ok zeroAccount, st').
Proof.
  intros Hid Hid' Hget Hput Hget' Habs zeroAccount.
  exists (store ("UserData_" ++ peerID) (UserData.Marshal zeroAccount) st).
  pose proof (lookup_store_eq ("UserData_" ++ peerID) (UserData.Marshal zeroAccount) st) as Hl.
  repeat split.
  - unfold GetUserData. run. rewrite Hid. run. rewrite Hget. run. rewrite Habs. run.
    now rewrite Hput.
  - exact Hl.
  - unfold GetUserDataOld. run. rewrite Hget'. run. now rewrite Hl.
  - unfold GetUserData. run. rewrite Hid'. run. rewrite Hget'. run. now rewrite Hl.
Qed.

Lemma GetUserData_creates_the_zero_record_witness :
  exists st',
    GetUserData (honest "carol") ledgerOfFive = (Ok (UserData.mk "carol" 0 0 0 0 0), st') /\
    lookup "UserData_carol" st' = Some (UserData.Marshal (UserData.mk "carol" 0 0 0 0 0)) /\
    GetUserDataOld (honest "carol") "carol" st' = (Ok (UserData.mk "carol" 0 0 0 0 0), st') /\
    GetUserData (honest "carol") st' = (Ok (UserData.mk "carol" 0 0 0 0 0), st').
Proof.
  apply (GetUserData_creates_the_zero_record (honest "carol") (honest "carol") "carol"
           ledgerOfFive); reflexivity.
Defined.

(** ** The listing by subscription level *)

(** Relative to what [GetAllCTIItems] lists, the filter is exact.  When
    the listing of all items and the read of the caller's record
    succeed, [GetCTIItemsFilteredBySubscriptionLevel] returns the listed
    items whose [Level] is at most the caller's [Subscribed], in the
    order of the listing, the listing being the decoded entries of the
    range of [GetAllCTIItems]; a caller with no record gets the zero
    record stored on the way; and after an [UpdateUserData] that sets
    [Subscribed], the same query returns the items up to the new level. *)
Theorem filtered_items_follow_subscription ctx st allCTIItems userData st1 :
  GetAllCTIItems ctx st = (Ok allCTIItems, st) ->
  GetUserData ctx st = (Ok userData, st1) ->
  let visible (subscribed : int) :=
    filter (fun ctiItem => (CTIData.Level ctiItem <=? subscribed)%Z) allCTIItems in
  let key := "UserData_" ++ fst (GetID ctx) in
  allCTIItems = decodedItems (scan "CTI_0" "CTI_999999" st) /\
  GetCTIItemsFilteredBySubscriptionLevel ctx st =
    (Ok (visible (UserData.Subscribed userData)), st1) /\
  (lookup key st = None ->
   userData = UserData.mk (fst (GetID ctx)) 0 0 0 0 0 /\
   lookup key st1 = Some (UserData.Marshal userData)) /\
  (forall uploadCount points subscribed balance st2,
     UpdateUserData ctx uploadCount points subscribed balance st1 = (Ok tt, st2) ->
     GetCTIItemsFilteredBySubscriptionLevel ctx st2 = (Ok (visible subscribed), st2)).
Proof.
  intros Hall Huser visible key. subst key.
  destruct (GetUserData_inv _ _ _ _ Huser) as (peerID & Hid & Hget & Hcase).
  rewrite Hid. cbn [fst].
  assert (Hall1 : GetAllCTIItems ctx st1 = (Ok allCTIItems, st1)).
  { rewrite (GetAllCTIItems_scan ctx st st1), Hall; [reflexivity|].
    destruct Hcase as [(_ & _ & ->)|(b & _ & _ & ->)]; [|reflexivity].
    now apply scan_store_outside. }
  split; [|split; [|split]].
  - now apply GetAllCTIItems_Ok in Hall.
  - unfold GetCTIItemsFilteredBySubscriptionLevel. unfold bind, orWrap, ret.
    now rewrite Hall, Huser.
  - intros Habs. destruct Hcase as [(_ & -> & ->)|(b & Hb & _)]; [|congruence].
    split; [reflexivity|]. apply lookup_store_eq.
  - intros uploadCount points subscribed balance st2 Hupd.
    destruct (UpdateUserData_inv _ _ _ _ _ _ _ _ Hupd)
      as (peerID' & b & existing & Hid' & _ & Hb & Hdec & ->).
    rewrite Hid in Hid'. inv Hid'.
    set (updated := UserData.mk _ _ _ _ _ _).
    set (st2 := store _ _ st1).
    assert (Hall2 : GetAllCTIItems ctx st2 = (Ok allCTIItems, st2)).
    { rewrite (GetAllCTIItems_scan ctx st1 st2), Hall1; [reflexivity|].
      now apply scan_store_outside. }
    assert (Huser2 : GetUserData ctx st2 = (Ok updated, st2)).
    { unfold GetUserData. run. rewrite Hid. run. rewrite Hget. run.
      pose proof (lookup_store_eq ("UserData_" ++ peerID') (UserData.Marshal updated) st1) as Hl.
      run. subst st2. rewrite Hl. reflexivity. }
    unfold GetCTIItemsFilteredBySubscriptionLevel. unfold bind, orWrap, ret.
    now rewrite Hall2, Huser2.
Qed.

(** On the ledger of five items, of which item 1 has level 2 and the
    others level 0: a new caller is listed four items. *)
Example new_caller_sees_level_0 :
  map CTIData.ID (decodedItems (scan "CTI_0" "CTI_999999" ledgerOfFive)) =
    ["1"; "2"; "3"; "4"; "5"] /\
  match fst (GetCTIItemsFilteredBySubscriptionLevel (honest "carol") ledgerOfFive) with
  | Ok items => map CTIData.ID items = ["2"; "3"; "4"; "5"]
  | Err _ => False
  end.
Proof. vm_compute. split; reflexivity. Qed.

Lemma AddCTIItem_frame ctx name timestamp cid encryptKey points level st key :
  key <> "latestID" -> (forall id, key <> "CTI_" ++ id) ->
  lookup key (snd (AddCTIItem ctx name timestamp cid encryptKey points level st)) =
  lookup key st.
Proof.
  intros Hctr Hent.
  unfold AddCTIItem. go; repeat rewrite lookup_store_neq; auto; apply (Hent _).
Qed.

(** What [GetUserData] returns depends on the caller's record only. *)
Lemma GetUserData_fst ctx st st' :
  lookup ("UserData_" ++ fst (GetID ctx)) st' = lookup ("UserData_" ++ fst (GetID ctx)) st ->
  fst (GetUserData ctx st') = fst (GetUserData ctx st).
Proof.
  unfold GetUserData, bind, GetClientID, GetState, PutState, ifErr, fail, ret.
  destruct (GetID ctx) as [peerID [e|]]; cbn [fst snd]; [reflexivity|].
  destruct (getStateErr ctx _); [reflexivity|]. intros ->.
  destruct (lookup _ st) as [b|].
  - destruct (UserData.Unmarshal b) as [u [e|]]; reflexivity.
  - destruct (putStateErr ctx _); reflexivity.
Qed.

(** C8 (fails on the code, by the defect of C3).  On any ledger whose
    counter stands at 999998, the item of the next [AddCTIItem] is
    stored, with the [Level] of the call, under [CTI_999999], and
    [GetCTIItemsFilteredBySubscriptionLevel] returns to every caller
    what it returned before the item was added: the item is not among
    the returned items, whatever its level and the caller's
    subscription. *)
Theorem filtered_listing_misses_ID_999999
    ctx ctx' name timestamp cid encryptKey points level st r st' :
  getStateErr ctx "latestID" = None ->
  lookup "latestID" st = Some (Text "999998") ->
  AddCTIItem ctx name timestamp cid encryptKey points level st = (Ok r, st') ->
  lookup "CTI_999999" st' =
    Some (CTIData.Marshal
            (CTIData.mk "999999" name (fst (GetID ctx)) timestamp cid encryptKey points level)) /\
  fst (GetCTIItemsFilteredBySubscriptionLevel ctx' st') =
  fst (GetCTIItemsFilteredBySubscriptionLevel ctx' st).
Proof.
  intros Hget Hc H.
  destruct (GetAllCTIItems_after_999998 ctx ctx' _ _ _ _ _ _ _ _ _ Hget Hc H) as [Hl Hall].
  split; [exact Hl|].
  assert (Huser : fst (GetUserData ctx' st') = fst (GetUserData ctx' st)).
  { apply GetUserData_fst.
    replace st' with (snd (AddCTIItem ctx name timestamp cid encryptKey points level st))
      by now rewrite H.
    apply AddCTIItem_frame; [discriminate|intros id; discriminate]. }
  unfold GetCTIItemsFilteredBySubscriptionLevel, bind, orWrap, ret.
  rewrite Hall. pose proof (GetAllCTIItems_state ctx' st) as Hs.
  destruct (GetAllCTIItems ctx' st) as [[all|e] st0]; cbn [fst snd] in *; subst st0;
    [|reflexivity].
  destruct (GetUserData ctx' st') as [r1 st1'].
  destruct (GetUserData ctx' st) as [r2 st1].
  cbn [fst] in Huser. subst r2. destruct r1; reflexivity.
Qed.

(** With nothing but the counter on the ledger: alice's item has level 0
    and is stored; carol, whose subscription level is 0, is listed
    nothing. *)
Lemma filtered_listing_misses_ID_999999_witness :
  let st := [("latestID", Text "999998")] in
  let item := CTIData.mk "999999" "report" "alice" 7 "cid" "key" 1 0 in
  let st' := [("CTI_999999", CTIData.Marshal item); ("latestID", Text "999999")] in
  lookup "CTI_999999" st' = Some (CTIData.Marshal item) /\
  fst (GetCTIItemsFilteredBySubscriptionLevel (honest "carol") st') = Ok [].
Proof.
  intros st item st'.
  apply (filtered_listing_misses_ID_999999 (honest "alice") (honest "carol")
           "report" 7%Z "cid" "key" 1%Z 0%Z st tt st'); reflexivity.
Defined.

(** ** Deletion of an item *)

(** C9.  [DeleteCTIItemByID] on an id with no item returns the error
    that says so and changes nothing.  After a delete that returned
    [nil], [GetCTIItem] of that id returns its does-not-exist error, every
    other key holds what it held, and [GetAllReviewData] and
    [GetReviewDataByCTIDataID] return what they returned before: the
    reviews of the item are still there and still listed. *)
Theorem DeleteCTIItemByID_leaves_reviews ctx id st :
  (lookup ("CTI_" ++ id) st = None ->
   getStateErr ctx ("CTI_" ++ id) = None ->
   DeleteCTIItemByID ctx id st =
     (Err (errorString ("CTI data entry with ID " ++ id ++ " does not exist")), st)) /\
  (forall r st',
     DeleteCTIItemByID ctx id st = (Ok r, st') ->
     (forall ctx' n,
        Itoa n = id -> getStateErr ctx' ("CTI_" ++ id) = None ->
        GetCTIItem ctx' n st' =
          (Err (errorString ("CTI item with ID " ++ id ++ " does not exist")), st')) /\
     (forall key, key <> "CTI_" ++ id -> lookup key st' = lookup key st) /\
     (forall ctx', GetAllReviewData ctx' st' = (fst (GetAllReviewData ctx' st), st')) /\
     (forall ctx' ctiDataID,
        GetReviewDataByCTIDataID ctx' ctiDataID st' =
          (fst (GetReviewDataByCTIDataID ctx' ctiDataID st), st'))).
Proof.
  split.
  - intros Habs Hget. unfold DeleteCTIItemByID. run. rewrite Hget. run. now rewrite Habs.
  - intros r st' H. apply DeleteCTIItemByID_inv in H as [_ ->].
    assert (Hs : scan "Review_" "Review_z" (remove ("CTI_" ++ id) st) =
                 scan "Review_" "Review_z" st)
      by now apply scan_remove_outside.
    repeat split.
    + intros ctx' n <- Hget. unfold GetCTIItem. run. rewrite Hget. run.
      pose proof (lookup_remove_eq ("CTI_" ++ Itoa n) st) as Hl. run. now rewrite Hl.
    + intros key Hk. now apply lookup_remove_neq.
    + intros ctx'. now apply GetAllReviewData_scan.
    + intros ctx' ctiDataID. now apply GetReviewDataByCTIDataID_scan.
Qed.

(** Item 2 of the ledger of five is reviewed, then deleted. *)
Lemma DeleteCTIItemByID_leaves_reviews_witness :
  let alice := honest "alice" in
  let st := snd (AddReviewData alice "2" 5 4 3 2 "useful" ledgerOfFive) in
  let st' := snd (DeleteCTIItemByID alice "2" st) in
  let review := ReviewData.mk "Review_1" "alice" "2" 5 4 3 2 "useful" in
  DeleteCTIItemByID alice "7" st =
    (Err (errorString "CTI data entry with ID 7 does not exist"), st) /\
  GetCTIItem alice 2 st' = (Err (errorString "CTI item with ID 2 does not exist"), st') /\
  lookup "Review_Review_1" st' = Some (ReviewData.Marshal review) /\
  GetReviewDataByCTIDataID alice "2" st' = (Ok [review], st').
Proof.
  intros alice st st' review.
  destruct (DeleteCTIItemByID_leaves_reviews alice "7" st) as [Habsent _].
  destruct (DeleteCTIItemByID_leaves_reviews alice "2" st) as [_ Hdeleted].
  destruct (Hdeleted tt st' eq_refl) as (Hget & Hframe & _ & Hlist).
  split; [apply Habsent; reflexivity|].
  split; [apply (Hget alice 2%Z); reflexivity|].
  split.
  - rewrite Hframe by discriminate. reflexivity.
  - apply (Hlist alice "2").
Defined.

(** An item, a review of it, the item deleted: the review is still
    listed. *)
Example review_survives_delete :
  let alice := honest "alice" in
  let st1 := snd (AddCTIItem alice "report" 7 "cid" "key" 1 0 []) in
  let st2 := snd (AddReviewData alice "1" 5 4 3 2 "useful" st1) in
  let st3 := snd (DeleteCTIItemByID alice "1" st2) in
  fst (GetCTIItem alice 1 st3) = Err (errorString "CTI item with ID 1 does not exist") /\
  fst (GetReviewDataByCTIDataID alice "1" st3) =
    Ok [ReviewData.mk "Review_1" "alice" "1" 5 4 3 2 "useful"].
Proof. split; reflexivity. Qed.

(** ** The [UserLevel] of a user record *)

(** C10.  [UserData] has a field [UserLevel].  An [UpdateUserData] that
    returns [nil] writes back the record it read with its [ID] and its
    [UserLevel] kept and the other four fields taken from the arguments.
    On every ledger the contract can bring about from the empty one, the
    [UserLevel] of every user record is zero, and whatever transaction
    runs next, the record is still there with the same [UserLevel] and
    the same [ID]. *)
Theorem UserLevel_is_kept :
  (forall ctx uploadCount points subscribed balance st r st',
     UpdateUserData ctx uploadCount points subscribed balance st = (Ok r, st') ->
     exists peerID b existing,
       GetID ctx = (peerID, None) /\
       lookup ("UserData_" ++ peerID) st = Some b /\
       UserData.Unmarshal b = (existing, None) /\
       lookup ("UserData_" ++ peerID) st' =
         Some (UserData.Marshal
                 (UserData.mk (UserData.ID existing) (UserData.UserLevel existing)
                              uploadCount points subscribed balance))) /\
  (forall st, reachable st ->
     forall ctx i id v,
       lookup ("UserData_" ++ id) st = Some v ->
       exists u u',
         v = UserData.Marshal u /\
         lookup ("UserData_" ++ id) (invoke ctx i st) = Some (UserData.Marshal u') /\
         UserData.UserLevel u' = UserData.UserLevel u /\
         UserData.UserLevel u = 0%Z /\
         UserData.ID u' = UserData.ID u).
Proof.
  split.
  - intros ctx uploadCount points subscribed balance st r st' H.
    apply UpdateUserData_inv in H as (peerID & b & existing & Hid & _ & Hb & Hdec & ->).
    exists peerID, b, existing. repeat split; auto. apply lookup_store_eq.
  - intros st Hreach ctx i id v Hl.
    pose proof (reachable_plain _ Hreach) as Hst.
    pose proof (invoke_plain ctx i _ Hst) as Hst'.
    destruct (Hst _ _ (lookup_In _ _ _ Hl)) as (u & -> & Hid & Hlvl).
    assert (Hsome : lookup ("UserData_" ++ id) st <> None) by congruence.
    apply (evolves_keeps_users _ _ _ (invoke_evolves ctx i st)) in Hsome.
    destruct (lookup ("UserData_" ++ id) (invoke ctx i st)) as [v'|] eqn:Hl'; [|congruence].
    destruct (Hst' _ _ (lookup_In _ _ _ Hl')) as (u' & -> & Hid' & Hlvl').
    exists u, u'. repeat split; congruence.
Qed.

(** A record with a [UserLevel] other than zero, as another writer might
    have left it, keeps the level through [UpdateUserData]; on a ledger
    of the contract's own, bob's record keeps level zero through an
    [AddUserData] and through an [UpdateUserData]. *)
Lemma UserLevel_is_kept_witness :
  let bob := honest "bob" in
  let foreign := [("UserData_bob", UserData.Marshal (UserData.mk "bob" 3 1 10 0 50))] in
  let st := snd (AddUserData bob 3 30 1 100 ledgerOfFive) in
  (exists peerID b existing,
      GetID bob = (peerID, None) /\
      lookup ("UserData_" ++ peerID) foreign = Some b /\
      UserData.Unmarshal b = (existing, None) /\
      lookup ("UserData_" ++ peerID) (snd (UpdateUserData bob 4 40 2 90 foreign)) =
        Some (UserData.Marshal
                (UserData.mk (UserData.ID existing) (UserData.UserLevel existing) 4 40 2 90))) /\
  (exists u u',
      UserData.Marshal (UserData.mk "bob" 0 3 30 1 100) = UserData.Marshal u /\
      lookup "UserData_bob" (invoke bob (InvUpdateUserData 4 40 2 90) st) =
        Some (UserData.Marshal u') /\
      UserData.UserLevel u' = UserData.UserLevel u /\
      UserData.UserLevel u = 0%Z /\
      UserData.ID u' = UserData.ID u).
Proof.
  intros bob foreign st.
  destruct UserLevel_is_kept as [Hupdate Hreach]. split.
  - apply (Hupdate bob 4%Z 40%Z 2%Z 90%Z foreign tt). reflexivity.
  - apply (Hreach st).
    + apply (reachable_invoke bob (InvAddUserData 3 30 1 100)). apply reachable_ledgerOfFive.
    + reflexivity.
Defined.

Example UpdateUserData_keeps_foreign_UserLevel :
  fst (GetUserDataOld (honest "bob") "bob"
         (snd (UpdateUserData (honest "bob") 4 40 2 90
                 [("UserData_bob", UserData.Marshal (UserData.mk "bob" 3 1 10 0 50))])))
  = Ok (UserData.mk "bob" 3 4 40 2 90).
Proof. reflexivity. Qed.

(** * Further properties of the contract *)

(** ** Items: update and read back *)

(** X1.  [UpdateCTIItem] on an item that is there overwrites the whole
    record under the same key: the [ID] is the id of the call, the
    [Uploader] is the caller of the update (whoever uploaded the item
    first), no other key changes, and [GetCTIItem] reads the new record
    back as the encoder wrote it: with U+FFFD for the bytes of its
    strings that are not valid UTF-8, and so byte for byte when they all
    are. *)
Theorem UpdateCTIItem_overwrites_with_caller
    ctx uploader id name timestamp cid encryptKey points level st :
  GetID ctx = (uploader, None) ->
  getStateErr ctx ("CTI_" ++ id) = None ->
  putStateErr ctx ("CTI_" ++ id) = None ->
  lookup ("CTI_" ++ id) st <> None ->
  let updated := CTIData.mk id name uploader timestamp cid encryptKey points level in
  let st' := store ("CTI_" ++ id) (CTIData.Marshal updated) st in
  UpdateCTIItem ctx id name timestamp cid encryptKey points level st = (Ok tt, st') /\
  (forall key, key <> "CTI_" ++ id -> lookup key st' = lookup key st) /\
  (forall ctx' n, Itoa n = id -> getStateErr ctx' ("CTI_" ++ id) = None ->
                  GetCTIItem ctx' n st' = (Ok (CTIData.coerced updated), st')) /\
  (json.coerceUTF8 name = name -> json.coerceUTF8 uploader = uploader ->
   json.coerceUTF8 cid = cid -> json.coerceUTF8 encryptKey = encryptKey ->
   forall n, Itoa n = id -> CTIData.coerced updated = updated).
Proof.
  intros Hid Hget Hput Hsome updated st'. repeat split.
  - unfold UpdateCTIItem. run. rewrite Hid. run. rewrite Hget. run.
    destruct (lookup _ st); [|congruence]. run. now rewrite Hput.
  - intros key Hk. now apply lookup_store_neq.
  - intros ctx' n Hn Hget'. subst id. unfold GetCTIItem, bind, GetState, ifErr, ret, fail.
    subst st'. now rewrite Hget', lookup_store_eq, CTIData_roundtrip.
  - intros Hname Hup Hcid Hkey n Hn. subst id updated. unfold CTIData.coerced.
    cbn [CTIData.ID CTIData.Name CTIData.Uploader CTIData.CID CTIData.EncryptKey
         CTIData.Timestamp CTIData.Points CTIData.Level].
    now rewrite coerce_Itoa, Hname, Hup, Hcid, Hkey.
Qed.

Lemma UpdateCTIItem_overwrites_with_caller_witness :
  let updated := CTIData.mk "2" "b2" "alice" 20 "cid2b" "k2b" 5 1 in
  let st' := store "CTI_2" (CTIData.Marshal updated) ledgerOfFive in
  UpdateCTIItem (honest "alice") "2" "b2" 20 "cid2b" "k2b" 5 1 ledgerOfFive = (Ok tt, st') /\
  lookup "latestID" st' = lookup "latestID" ledgerOfFive /\
  GetCTIItem (honest "bob") 2 st' = (Ok updated, st').
Proof.
  intros updated st'.
  destruct (UpdateCTIItem_overwrites_with_caller (honest "alice") "alice" "2" "b2" 20%Z
              "cid2b" "k2b" 5%Z 1%Z ledgerOfFive eq_refl eq_refl eq_refl)
    as (Hupd & Hframe & Hread & _); [vm_compute; discriminate|].
  split; [exact Hupd|]. split.
  - apply Hframe. discriminate.
  - apply (Hread (honest "bob") 2%Z); reflexivity.
Defined.

(** X2.  An [AddCTIItem] that returns [nil], with the counter at [n] and
    its read not failing, stores the item under ID [n + 1] with the
    caller as [Uploader], and [GetCTIItem] of [n + 1] returns the item
    that was added as the encoder wrote it: with U+FFFD for the bytes of
    its strings that are not valid UTF-8. *)
Theorem AddCTIItem_then_GetCTIItem
    ctx ctx' name timestamp cid encryptKey points level st n r st' :
  counterAt n st -> (0 <= n < maxInt)%Z ->
  getStateErr ctx "latestID" = None ->
  AddCTIItem ctx name timestamp cid encryptKey points level st = (Ok r, st') ->
  getStateErr ctx' ("CTI_" ++ Itoa (n + 1)) = None ->
  GetCTIItem ctx' (n + 1) st' =
    (Ok (CTIData.coerced
           (CTIData.mk (Itoa (n + 1)) name (fst (GetID ctx)) timestamp cid encryptKey
                       points level)), st').
Proof.
  intros Hc Hn Hget H Hget'.
  destruct (AddItem_next ctx
              {| a_name := name; a_timestamp := timestamp; a_cid := cid;
                 a_encryptKey := encryptKey; a_points := points; a_level := level |}
              st n r st' Hc Hn Hget H) as [_ Hl].
  cbn [a_name a_timestamp a_cid a_encryptKey a_points a_level] in Hl.
  unfold GetCTIItem. unfold bind, ifErr, GetState, ret, fail.
  rewrite Hget', Hl, CTIData_roundtrip. reflexivity.
Qed.

Lemma AddCTIItem_then_GetCTIItem_witness :
  let st' := snd (AddCTIItem (honest "alice") "f" 6 "cid6" "k6" 1 0 ledgerOfFive) in
  GetCTIItem (honest "bob") (5 + 1) st' =
    (Ok (CTIData.mk "6" "f" "alice" 6 "cid6" "k6" 1 0), st').
Proof.
  intros st'.
  apply (AddCTIItem_then_GetCTIItem (honest "alice") (honest "bob") "f" 6%Z "cid6" "k6"
           1%Z 0%Z ledgerOfFive 5%Z tt st').
  - right. split; [reflexivity|reflexivity].
  - unfold maxInt. split; [discriminate|reflexivity].
  - reflexivity.
  - reflexivity.
  - reflexivity.
Defined.

(** ** The queries that only read *)

Lemma GetCTIItem_state ctx id st : snd (GetCTIItem ctx id st) = st.
Proof.
  unfold GetCTIItem. run.
  destruct (getStateErr ctx _); run; [reflexivity|].
  destruct (lookup _ st) as [b|]; run; [|reflexivity].
  destruct (CTIData.Unmarshal b) as [c [e|]]; reflexivity.
Qed.

Lemma GetUserDataOld_state ctx user st : snd (GetUserDataOld ctx user st) = st.
Proof.
  unfold GetUserDataOld. run.
  destruct (getStateErr ctx _); run; [reflexivity|].
  destruct (lookup _ st) as [b|]; run; [|reflexivity].
  destruct (UserData.Unmarshal b) as [c [e|]]; reflexivity.
Qed.

(** X3.  [GetCTIItem], [GetAllCTIItems], [GetUserDataOld],
    [GetAllReviewData] and [GetReviewDataByCTIDataID] leave the world
    state as they found it, whatever they return and whatever fails. *)
Theorem queries_write_nothing ctx st :
  (forall id, snd (GetCTIItem ctx id st) = st) /\
  snd (GetAllCTIItems ctx st) = st /\
  (forall user, snd (GetUserDataOld ctx user st) = st) /\
  snd (GetAllReviewData ctx st) = st /\
  (forall ctiDataID, snd (GetReviewDataByCTIDataID ctx ctiDataID st) = st).
Proof.
  repeat split.
  - intros id. apply GetCTIItem_state.
  - apply GetAllCTIItems_state.
  - intros user. apply GetUserDataOld_state.
  - apply GetAllReviewData_state.
  - intros ctiDataID. now rewrite (GetReviewDataByCTIDataID_scan ctx ctiDataID st st eq_refl).
Qed.

(** ** User records: create and read *)

(** X4.  [AddUserData] does not look at what is stored: it writes the
    caller's record with the four fields of the call and [UserLevel]
    zero, over any record that was there, and changes no other key;
    [GetUserDataOld] and [GetUserData] then return that record. *)
Theorem AddUserData_sets_the_record
    ctx user uploadCount points subscribed balance st :
  GetID ctx = (user, None) ->
  putStateErr ctx ("UserData_" ++ user) = None ->
  let userData := UserData.mk user 0 uploadCount points subscribed balance in
  let st' := store ("UserData_" ++ user) (UserData.Marshal userData) st in
  AddUserData ctx uploadCount points subscribed balance st = (Ok tt, st') /\
  (forall key, key <> "UserData_" ++ user -> lookup key st' = lookup key st) /\
  (forall ctx', getStateErr ctx' ("UserData_" ++ user) = None ->
     GetUserDataOld ctx' user st' = (Ok userData, st') /\
     (GetID ctx' = (user, None) -> GetUserData ctx' st' = (Ok userData, st'))).
Proof.
  intros Hid Hput userData st'.
  pose proof (lookup_store_eq ("UserData_" ++ user) (UserData.Marshal userData) st) as Hl.
  repeat split.
  - unfold AddUserData. run. rewrite Hid. run. now rewrite Hput.
  - intros key Hk. now apply lookup_store_neq.
  - unfold GetUserDataOld. run. rewrite H. run. subst st'. run. now rewrite Hl.
  - intros Hid'. unfold GetUserData. run. rewrite Hid'. run. rewrite H. run.
    subst st'. run. now rewrite Hl.
Qed.

Lemma AddUserData_sets_the_record_witness :
  let st := snd (AddUserData (honest "bob") 3 30 1 100 ledgerOfFive) in
  let userData := UserData.mk "bob" 0 9 90 2 10 in
  let st' := store "UserData_bob" (UserData.Marshal userData) st in
  AddUserData (honest "bob") 9 90 2 10 st = (Ok tt, st') /\
  lookup "latestID" st' = lookup "latestID" st /\
  GetUserDataOld (honest "alice") "bob" st' = (Ok userData, st') /\
  GetUserData (honest "bob") st' = (Ok userData, st').
Proof.
  intros st userData st'.
  destruct (AddUserData_sets_the_record (honest "bob") "bob" 9%Z 90%Z 2%Z 10%Z st
              eq_refl eq_refl) as (Hadd & Hframe & Hread).
  split; [exact Hadd|]. split; [apply Hframe; discriminate|]. split.
  - apply (Hread (honest "alice")). reflexivity.
  - apply (Hread (honest "bob")); reflexivity.
Defined.

(** X5.  The two reads of a user record differ only when the record is
    missing.  With the caller's record stored they return the same
    result and neither writes; with none stored, [GetUserDataOld]
    returns its does-not-exist error and writes nothing, where
    [GetUserData] stores the zero record. *)
Theorem GetUserDataOld_against_GetUserData ctx peerID st :
  GetID ctx = (peerID, None) ->
  getStateErr ctx ("UserData_" ++ peerID) = None ->
  (lookup ("UserData_" ++ peerID) st <> None ->
   GetUserData ctx st = GetUserDataOld ctx peerID st) /\
  (lookup ("UserData_" ++ peerID) st = None ->
   GetUserDataOld ctx peerID st =
     (Err (errorString ("User data for user " ++ peerID ++ " does not exist")), st) /\
   (putStateErr ctx ("UserData_" ++ peerID) = None ->
    GetUserData ctx st =
      (Ok (UserData.mk peerID 0 0 0 0 0),
       store ("UserData_" ++ peerID) (UserData.Marshal (UserData.mk peerID 0 0 0 0 0)) st))).
Proof.
  intros Hid Hget. split; [|split].
  - intros Hsome. unfold GetUserData, GetUserDataOld. run. rewrite Hid. run.
    rewrite Hget. run. destruct (lookup _ st); [reflexivity|congruence].
  - unfold GetUserDataOld. run. rewrite Hget. run. now rewrite H.
  - intros Hput. unfold GetUserData. run. rewrite Hid. run. rewrite Hget. run.
    rewrite H. run. now rewrite Hput.
Qed.

Lemma GetUserDataOld_against_GetUserData_witness :
  let st := snd (AddUserData (honest "bob") 3 30 1 100 ledgerOfFive) in
  GetUserData (honest "bob") st = GetUserDataOld (honest "bob") "bob" st /\
  GetUserDataOld (honest "carol") "carol" st =
    (Err (errorString "User data for user carol does not exist"), st) /\
  GetUserData (honest "carol") st =
    (Ok (UserData.mk "carol" 0 0 0 0 0),
     store "UserData_carol" (UserData.Marshal (UserData.mk "carol" 0 0 0 0 0)) st).
Proof.
  intros st.
  destruct (GetUserDataOld_against_GetUserData (honest "bob") "bob" st eq_refl eq_refl)
    as [Hsame _].
  destruct (GetUserDataOld_against_GetUserData (honest "carol") "carol" st eq_refl eq_refl)
    as [_ Hmissing].
  split; [apply Hsame; vm_compute; discriminate|].
  assert (Habsent : lookup ("UserData_" ++ "carol") st = None) by (vm_compute; reflexivity).
  destruct (Hmissing Habsent) as [Hold Hnew]. split; [exact Hold|].
  apply Hnew. reflexivity.
Defined.

(** ** The allocator of review IDs *)

Lemma generateUniqueID_step ctx prefix n st :
  counterHolds ("latestID_" ++ prefix) n st -> (0 <= n < maxInt)%Z ->
  getStateErr ctx ("latestID_" ++ prefix) = None ->
  putStateErr ctx ("latestID_" ++ prefix) = None ->
  generateUniqueID ctx prefix st =
    (Ok (prefix ++ "_" ++ Itoa (n + 1)),
     store ("latestID_" ++ prefix) (Text (Itoa (n + 1))) st).
Proof.
  intros Hc Hn Hget Hput.
  unfold generateUniqueID. unfold bind, GetState, ifErr, ret, fail, PutState.
  rewrite Hget. destruct Hc as [[-> Hc]|[Hpos Hc]]; rewrite Hc.
  - now rewrite Hput.
  - cbn [string_of_bytes].
    rewrite Atoi_Itoa by (apply inInt_iff; unfold minInt, maxInt in *; lia).
    rewrite incr_succ by (unfold minInt, maxInt in *; lia). now rewrite Hput.
Qed.

(** X6.  With the counter of [prefix] at [n] (nothing stored for 0),
    [generateUniqueID] returns [prefix_<n+1>], stores [n + 1] as the new
    counter and changes no other key. *)
Theorem generateUniqueID_next ctx prefix n st :
  counterHolds ("latestID_" ++ prefix) n st -> (0 <= n < maxInt)%Z ->
  getStateErr ctx ("latestID_" ++ prefix) = None ->
  putStateErr ctx ("latestID_" ++ prefix) = None ->
  let st' := store ("latestID_" ++ prefix) (Text (Itoa (n + 1))) st in
  generateUniqueID ctx prefix st = (Ok (prefix ++ "_" ++ Itoa (n + 1)), st') /\
  counterHolds ("latestID_" ++ prefix) (n + 1) st' /\
  (forall key, key <> "latestID_" ++ prefix -> lookup key st' = lookup key st).
Proof.
  intros Hc Hn Hget Hput st'. repeat split.
  - now apply generateUniqueID_step.
  - right. split; [lia|]. apply lookup_store_eq.
  - intros key Hk. now apply lookup_store_neq.
Qed.

Lemma generateUniqueID_next_witness :
  let st := snd (AddReviewData (honest "alice") "2" 5 4 3 2 "useful" ledgerOfFive) in
  let st' := store "latestID_Review" (Text "2") st in
  generateUniqueID (honest "bob") "Review" st = (Ok "Review_2", st') /\
  counterHolds "latestID_Review" (1 + 1) st' /\
  lookup "Review_Review_1" st' = lookup "Review_Review_1" st.
Proof.
  intros st st'.
  destruct (generateUniqueID_next (honest "bob") "Review" 1%Z st) as (Hgen & Hctr & Hframe).
  - right. split; reflexivity.
  - unfold maxInt. split; [discriminate|reflexivity].
  - reflexivity.
  - reflexivity.
  - split; [exact Hgen|]. split; [exact Hctr|]. apply Hframe. discriminate.
Defined.

(** X7.  A stored counter that is not the text of an [int] stops both
    allocators: [AddCTIItem] and [generateUniqueID] return the error of
    the conversion, wrapped, and write nothing. *)
Theorem unparsable_counter_stops_allocation
    ctx name timestamp cid encryptKey points level prefix b b' z z' e e' st :
  (snd (GetID ctx) = None ->
   getStateErr ctx "latestID" = None ->
   lookup "latestID" st = Some b ->
   Atoi (string_of_bytes b) = (z, Some e) ->
   AddCTIItem ctx name timestamp cid encryptKey points level st =
     (Err (wrapError "failed to convert latest ID to integer: " e), st)) /\
  (getStateErr ctx ("latestID_" ++ prefix) = None ->
   lookup ("latestID_" ++ prefix) st = Some b' ->
   Atoi (string_of_bytes b') = (z', Some e') ->
   generateUniqueID ctx prefix st =
     (Err (wrapError "failed to convert latest ID to integer: " e'), st)).
Proof.
  split.
  - intros Hid Hget Hl Hconv. unfold AddCTIItem.
    unfold bind, GetClientID, GetState, ifErr, skip, ret, fail.
    destruct (GetID ctx) as [uploader [e0|]]; [discriminate|].
    now rewrite Hget, Hl, Hconv.
  - intros Hget Hl Hconv. unfold generateUniqueID.
    unfold bind, GetState, ifErr, ret, fail. now rewrite Hget, Hl, Hconv.
Qed.

Lemma unparsable_counter_stops_allocation_witness :
  let st := [("latestID", Text "12a"); ("latestID_Review", Text "9223372036854775808")] in
  AddCTIItem (honest "alice") "n" 1 "c" "k" 1 0 st =
    (Err (wrapError "failed to convert latest ID to integer: "
            (NumError "Atoi" "12a" ErrSyntax)), st) /\
  generateUniqueID (honest "alice") "Review" st =
    (Err (wrapError "failed to convert latest ID to integer: "
            (NumError "Atoi" "9223372036854775808" ErrRange)), st).
Proof.
  intros st.
  destruct (unparsable_counter_stops_allocation (honest "alice") "n" 1%Z "c" "k" 1%Z 0%Z
              "Review" (Text "12a") (Text "9223372036854775808") 0%Z maxInt
              (NumError "Atoi" "12a" ErrSyntax)
              (NumError "Atoi" "9223372036854775808" ErrRange) st) as [HItem HReview].
  split; [apply HItem; reflexivity|apply HReview; reflexivity].
Defined.

(** ** The two listings *)

Lemma In_store_same key value st : In (key, value) (store key value st).
Proof.
  induction st as [|[k v] rest IH]; simpl; [now left|].
  destruct (key =? k); [now left|]. destruct (String.ltb key k); [now left|]. now right.
Qed.

Lemma In_scan startKey endKey kv st :
  In kv (scan startKey endKey st) <-> In kv st /\ inRange startKey endKey (fst kv) = true.
Proof. unfold scan. apply filter_In. Qed.

Lemma drainReviews_Ok ctx it : forall acc st reviews st',
  drainReviews ctx it acc st = (Ok reviews, st') -> reviews = (acc ++ decodedReviews it)%list.
Proof.
  induction it as [|[k v] rest IH]; intros acc st reviews st' H; simpl in H.
  - run. tidy. now rewrite app_nil_r.
  - run. destruct (nextErr ctx k); run; tidy.
    destruct (ReviewData.Unmarshal v) as [c [e|]] eqn:E; run; tidy.
    apply IH in H. subst reviews. unfold decodedReviews. simpl.
    now rewrite <- app_assoc.
Qed.

Lemma GetAllReviewData_Ok ctx st reviews st' :
  GetAllReviewData ctx st = (Ok reviews, st') ->
  reviews = decodedReviews (scan "Review_" "Review_z" st).
Proof.
  intros H. unfold GetAllReviewData in H. run.
  destruct (rangeErr ctx _ _); run; tidy. now apply drainReviews_Ok in H.
Qed.

Lemma drainCTI_corrupt ctx it : forall acc st k v,
  In (k, v) it -> snd (CTIData.Unmarshal v) <> None ->
  exists e, drainCTI ctx it acc st = (Err e, st).
Proof.
  induction it as [|[k0 v0] rest IH]; intros acc st k v Hin Hbad; [destruct Hin|].
  simpl. unfold bind, ifErr, fail, ret.
  destruct (nextErr ctx k0); [eauto|].
  destruct (CTIData.Unmarshal v0) as [c [e|]] eqn:E; [eauto|].
  destruct Hin as [Heq|Hin].
  - inversion Heq. subst. rewrite E in Hbad. now destruct Hbad.
  - apply (IH _ _ k v Hin Hbad).
Qed.

Lemma drainReviews_corrupt ctx it : forall acc st k v,
  In (k, v) it -> snd (ReviewData.Unmarshal v) <> None ->
  exists e, drainReviews ctx it acc st = (Err e, st).
Proof.
  induction it as [|[k0 v0] rest IH]; intros acc st k v Hin Hbad; [destruct Hin|].
  simpl. unfold bind, ifErr, fail, ret.
  destruct (nextErr ctx k0); [eauto|].
  destruct (ReviewData.Unmarshal v0) as [c [e|]] eqn:E; [eauto|].
  destruct Hin as [Heq|Hin].
  - inversion Heq. subst. rewrite E in Hbad. now destruct Hbad.
  - apply (IH _ _ k v Hin Hbad).
Qed.

(** X8.  [GetAllReviewData] lists the reviews and nothing else: when it
    returns a list, every review stored under a key [Review_Review_...]
    (the keys [AddReviewData] writes, whatever the number) is in it, as
    the encoder wrote it, and every element of it is the decoded value
    of an entry whose key begins with [Review_]. *)
Theorem GetAllReviewData_lists_every_review ctx st reviews st' :
  GetAllReviewData ctx st = (Ok reviews, st') ->
  (forall n review,
     lookup ("Review_Review_" ++ n) st = Some (ReviewData.Marshal review) ->
     In (ReviewData.coerced review) reviews) /\
  (forall review, In review reviews ->
     exists id v, In ("Review_" ++ id, v) st /\ review = fst (ReviewData.Unmarshal v)).
Proof.
  intros H. apply GetAllReviewData_Ok in H. subst reviews. split.
  - intros n review Hl. apply lookup_In in Hl.
    unfold decodedReviews. apply in_map_iff.
    exists ("Review_Review_" ++ n, ReviewData.Marshal review). split.
    + cbn [snd]. now rewrite ReviewData_roundtrip.
    + apply In_scan. split; [exact Hl|reflexivity].
  - intros review Hin. unfold decodedReviews in Hin. apply in_map_iff in Hin.
    destruct Hin as ([k v] & Hdec & Hin). apply In_scan in Hin as [Hin Hrange].
    cbn [fst snd] in *. apply reviews_range_prefix in Hrange as [id ->].
    exists id, v. now split.
Qed.

Lemma GetAllReviewData_lists_every_review_witness :
  let st := snd (AddReviewData (honest "alice") "2" 5 4 3 2 "useful" ledgerOfFive) in
  let review := ReviewData.mk "Review_1" "alice" "2" 5 4 3 2 "useful" in
  In review [review] /\
  (forall r, In r [review] ->
     exists id v, In ("Review_" ++ id, v) st /\ r = fst (ReviewData.Unmarshal v)).
Proof.
  intros st review.
  destruct (GetAllReviewData_lists_every_review (honest "bob") st [review] st eq_refl)
    as [Hall Honly].
  split; [|exact Honly].
  apply (Hall "1" review). reflexivity.
Defined.

(** X9.  One entry in the range that does not decode makes the whole
    listing an error: [GetAllCTIItems] and [GetAllReviewData] return no
    partial list, and write nothing. *)
Theorem listing_stops_at_undecodable_entry ctx st k v :
  (In (k, v) (scan "CTI_0" "CTI_999999" st) ->
   snd (CTIData.Unmarshal v) <> None ->
   exists e, GetAllCTIItems ctx st = (Err e, st)) /\
  (In (k, v) (scan "Review_" "Review_z" st) ->
   snd (ReviewData.Unmarshal v) <> None ->
   exists e, GetAllReviewData ctx st = (Err e, st)).
Proof.
  split; intros Hin Hbad.
  - unfold GetAllCTIItems. unfold bind, GetStateByRange, ifErr, fail, ret.
    destruct (rangeErr ctx _ _); [eauto|]. now apply (drainCTI_corrupt ctx _ _ _ k v).
  - unfold GetAllReviewData. unfold bind, GetStateByRange, ifErr, fail, ret.
    destruct (rangeErr ctx _ _); [eauto|]. now apply (drainReviews_corrupt ctx _ _ _ k v).
Qed.

Lemma listing_stops_at_undecodable_entry_witness :
  let st := store "CTI_3" (Text "garbled") ledgerOfFive in
  let st' := store "Review_Review_1" (JSON [("Accuracy", JString "high")]) ledgerOfFive in
  (exists e, GetAllCTIItems (honest "bob") st = (Err e, st)) /\
  (exists e, GetAllReviewData (honest "bob") st' = (Err e, st')).
Proof.
  intros st st'. split.
  - apply (proj1 (listing_stops_at_undecodable_entry (honest "bob") st "CTI_3"
                    (Text "garbled"))).
    + apply In_scan. split; [apply In_store_same|vm_compute; reflexivity].
    + discriminate.
  - apply (proj2 (listing_stops_at_undecodable_entry (honest "bob") st' "Review_Review_1"
                    (JSON [("Accuracy", JString "high")]))).
    + apply In_scan. split; [apply In_store_same|vm_compute; reflexivity].
    + discriminate.
Defined.

Lemma AddReviewData_inv ctx ctiDataID accuracy timeliness completeness consistency
      reviewText st r st' :
  AddReviewData ctx ctiDataID accuracy timeliness completeness consistency reviewText st
    = (Ok r, st') ->
  lookup ("CTI_" ++ ctiDataID) st <> None /\
  exists latestID : int,
    lookup ("Review_Review_" ++ Itoa latestID) st' =
      Some (ReviewData.Marshal
              (ReviewData.mk ("Review_" ++ Itoa latestID) (fst (GetID ctx)) ctiDataID
                             accuracy timeliness completeness consistency reviewText)).
Proof.
  intros H. unfold AddReviewData in H.
  unfold bind at 1 2, GetClientID, ret at 1 in H.
  destruct (GetID ctx) as [peerID [e|]]; [discriminate|]. cbn [ifErr ret fst] in H.
  unfold bind at 1 2, GetState at 1 in H.
  destruct (getStateErr ctx ("CTI_" ++ ctiDataID)); [discriminate|]. cbn [ifErr ret] in H.
  destruct (lookup ("CTI_" ++ ctiDataID) st) as [b|]; [|discriminate].
  split; [discriminate|].
  unfold bind at 1, orWrap in H.
  destruct (generateUniqueID ctx "Review" st) as [[reviewID|e] st1] eqn:Hgen; [|discriminate].
  assert (exists latestID : int, reviewID = "Review_" ++ Itoa latestID) as [latestID ->].
  { unfold generateUniqueID in Hgen. go; eexists; reflexivity. }
  exists latestID. unfold bind, PutState, ifErr, ret, fail in H.
  destruct (putStateErr ctx _); [discriminate|]. inv H. apply lookup_store_eq.
Qed.

(** X10.  A review that [AddReviewData] has stored is listed for its
    item: for an id that is valid UTF-8 (as every decimal id is),
    whenever [GetReviewDataByCTIDataID] of that item returns a list
    afterwards, the list holds the review as the encoder wrote it, with
    the caller as [UserDataID] and the scores and text of the call. *)
Theorem AddReviewData_then_listed
    ctx ctx' ctiDataID accuracy timeliness completeness consistency reviewText
    st r st' reviews st'' :
  json.coerceUTF8 ctiDataID = ctiDataID ->
  AddReviewData ctx ctiDataID accuracy timeliness completeness consistency reviewText st
    = (Ok r, st') ->
  GetReviewDataByCTIDataID ctx' ctiDataID st' = (Ok reviews, st'') ->
  exists latestID : int,
    In (ReviewData.coerced
          (ReviewData.mk ("Review_" ++ Itoa latestID) (fst (GetID ctx)) ctiDataID
                         accuracy timeliness completeness consistency reviewText))
       reviews.
Proof.
  intros Hvalid Hadd Hlist.
  apply AddReviewData_inv in Hadd as [_ [latestID Hl]]. exists latestID.
  unfold GetReviewDataByCTIDataID, bind, orWrap, ret in Hlist.
  destruct (GetAllReviewData ctx' st') as [[all|e] st0] eqn:Hall; [|discriminate].
  inv Hlist. apply GetAllReviewData_Ok in Hall. subst all.
  apply filter_In. split.
  - unfold decodedReviews. apply in_map_iff.
    eexists (_, _). split; [|apply In_scan; split; [apply (lookup_In _ _ _ Hl)|reflexivity]].
    cbn [snd]. now rewrite ReviewData_roundtrip.
  - cbn [ReviewData.coerced ReviewData.CTIDataID]. rewrite Hvalid. apply String.eqb_refl.
Qed.

Lemma AddReviewData_then_listed_witness :
  let st' := snd (AddReviewData (honest "alice") "2" 5 4 3 2 "useful" ledgerOfFive) in
  exists latestID : int,
    In (ReviewData.coerced
          (ReviewData.mk ("Review_" ++ Itoa latestID) "alice" "2" 5 4 3 2 "useful"))
       [ReviewData.mk "Review_1" "alice" "2" 5 4 3 2 "useful"].
Proof.
  intros st'.
  apply (AddReviewData_then_listed (honest "alice") (honest "bob") "2" 5%Z 4%Z 3%Z 2%Z
           "useful" ledgerOfFive tt st' _ st'); reflexivity.
Defined.

(** ** Which items the listing reaches *)

Lemma of_uint_acc_ge l : forall acc, (acc <= Pos.of_uint_acc l acc)%positive.
Proof.
  induction l as [|l IH|l IH|l IH|l IH|l IH|l IH|l IH|l IH|l IH|l IH]; intros acc;
    cbn [Pos.of_uint_acc]; [apply Pos.le_refl|..];
    (eapply Pos.le_trans; [|apply IH]); lia.
Qed.

(** The text of a number is below a text that starts with 9, unless it
    starts with 9 itself and its rest is not below the rest. *)
Lemma ltb_nine_step d e :
  String.ltb (NilEmpty.string_of_uint d) (String "9" e) = false ->
  exists d', d = Decimal.D9 d' /\ String.ltb (NilEmpty.string_of_uint d') e = false.
Proof.
  unfold String.ltb. destruct d; cbn; try discriminate. intros H. eauto.
Qed.

Lemma leb_zero_digits d :
  d <> Decimal.Nil -> String.leb "0" (NilEmpty.string_of_uint d) = true.
Proof.
  unfold String.leb. destruct d; intros H; try congruence; cbn; try reflexivity.
  destruct (NilEmpty.string_of_uint d); reflexivity.
Qed.

(** The keys of the IDs 1 to 999998 are inside the range of
    [GetAllCTIItems]. *)
Lemma item_keys_in_range n :
  (1 <= n <= 999998)%Z -> inRange "CTI_0" "CTI_999999" ("CTI_" ++ Itoa n) = true.
Proof.
  intros Hn. destruct n as [|p|p]; try lia.
  unfold Itoa. cbn [Z.to_int NilZero.string_of_int]. unfold NilZero.string_of_uint.
  pose proof (Unsigned.to_uint_nonnil p) as Hnil.
  pose proof (Unsigned.of_to p) as Hof.
  destruct (Pos.to_uint p) as [|d|d|d|d|d|d|d|d|d|d] eqn:Ed; [congruence|..].
  all: rewrite <- Ed in *; clear Ed.
  all: change (inRange "CTI_0" "CTI_999999" ("CTI_" ++ NilEmpty.string_of_uint (Pos.to_uint p)))
         with (String.leb "0" (NilEmpty.string_of_uint (Pos.to_uint p)) &&
               String.ltb (NilEmpty.string_of_uint (Pos.to_uint p)) "999999")%bool.
  all: rewrite (leb_zero_digits _ Hnil); cbn [andb].
  all: destruct (String.ltb (NilEmpty.string_of_uint (Pos.to_uint p)) "999999") eqn:Hlt;
         [reflexivity|exfalso].
  all: apply ltb_nine_step in Hlt as (d1 & E1 & Hlt); apply ltb_nine_step in Hlt as (d2 & E2 & Hlt);
       apply ltb_nine_step in Hlt as (d3 & E3 & Hlt); apply ltb_nine_step in Hlt as (d4 & E4 & Hlt);
       apply ltb_nine_step in Hlt as (d5 & E5 & Hlt); apply ltb_nine_step in Hlt as (d6 & E6 & _);
       subst d1 d2 d3 d4 d5; rewrite E1 in Hof; cbn [Pos.of_uint Pos.of_uint_acc] in Hof;
       injection Hof as Hof; pose proof (of_uint_acc_ge d6 999999%positive) as Hge;
       cbn in Hof; lia.
Qed.

(** X11.  What [GetAllCTIItems] reaches: when it returns a list, every
    item stored under the key of an ID from 1 to 999998 is in it, as the
    encoder wrote it, and every element of it is the decoded value of an
    entry whose key begins with [CTI_]. *)
Theorem GetAllCTIItems_lists_items_up_to_999998 ctx st items st' :
  GetAllCTIItems ctx st = (Ok items, st') ->
  (forall n item,
     (1 <= n <= 999998)%Z ->
     lookup ("CTI_" ++ Itoa n) st = Some (CTIData.Marshal item) ->
     In (CTIData.coerced item) items) /\
  (forall item, In item items ->
     exists id v, In ("CTI_" ++ id, v) st /\ item = fst (CTIData.Unmarshal v)).
Proof.
  intros H. apply GetAllCTIItems_Ok in H. subst items. split.
  - intros n item Hn Hl. apply lookup_In in Hl.
    unfold decodedItems. apply in_map_iff.
    exists ("CTI_" ++ Itoa n, CTIData.Marshal item). split.
    + cbn [snd]. now rewrite CTIData_roundtrip.
    + apply In_scan. split; [exact Hl|]. now apply item_keys_in_range.
  - intros item Hin. unfold decodedItems in Hin. apply in_map_iff in Hin.
    destruct Hin as ([k v] & Hdec & Hin). apply In_scan in Hin as [Hin Hrange].
    cbn [fst snd] in *. apply items_range_prefix in Hrange as [id ->].
    exists id, v. now split.
Qed.

Lemma GetAllCTIItems_lists_items_up_to_999998_witness :
  let item := CTIData.mk "4" "d" "bob" 4 "cid4" "k4" 1 0 in
  In item (decodedItems (scan "CTI_0" "CTI_999999" ledgerOfFive)).
Proof.
  intros item.
  destruct (GetAllCTIItems_lists_items_up_to_999998 (honest "alice") ledgerOfFive
              (decodedItems (scan "CTI_0" "CTI_999999" ledgerOfFive)) ledgerOfFive)
    as [Hall _]; [vm_compute; reflexivity|].
  apply (Hall 4%Z item); [lia|vm_compute; reflexivity].
Defined.

(** ** What the contract's own ledgers look like *)

Lemma inInt_wrap z : inInt (wrap z) = true.
Proof.
  apply inInt_iff. unfold wrap, minInt, maxInt.
  pose proof (Z.mod_pos_bound (z + 2 ^ 63) (2 ^ 64) eq_refl). lia.
Qed.

Lemma ledgerPlain_store key value st :
  entryPlain key value -> ledgerPlain st -> ledgerPlain (store key value st).
Proof.
  intros He Hst k v Hin. apply In_store in Hin as [Heq|Hin].
  - now inversion Heq.
  - now apply Hst.
Qed.

Lemma ledgerPlain_remove key st : ledgerPlain st -> ledgerPlain (remove key st).
Proof. intros Hst k v Hin. apply In_remove in Hin. now apply Hst. Qed.

Lemma entryPlain_user id v : entryPlain ("UserData_" ++ id) v.
Proof. repeat split; try (intros ? ?; discriminate). intros [?|?]; discriminate. Qed.

Lemma entryPlain_item n c :
  CTIData.ID c = Itoa n -> entryPlain ("CTI_" ++ Itoa n) (CTIData.Marshal c).
Proof.
  intros Hid. repeat split; try (intros ? ?; discriminate); [|intros [?|?]; discriminate].
  intros id' Heq. apply append_inj_l in Heq. subst id'. now exists c, n.
Qed.

Lemma entryPlain_review id r :
  ReviewData.ID r = id -> entryPlain ("Review_" ++ id) (ReviewData.Marshal r).
Proof.
  intros Hid. repeat split; try (intros ? ?; discriminate); [|intros [?|?]; discriminate].
  intros id' Heq. apply append_inj_l in Heq. subst id'. now exists r.
Qed.

Lemma entryPlain_counter key n :
  key = "latestID" \/ key = "latestID_Review" -> inInt n = true ->
  entryPlain key (Text (Itoa n)).
Proof.
  intros Hk Hn. repeat split.
  - intros id Heq. destruct Hk; subst key; discriminate.
  - intros id Heq. destruct Hk; subst key; discriminate.
  - intros _. now exists n.
Qed.

Ltac entries :=
  repeat first
    [ assumption
    | apply ledgerPlain_remove
    | apply ledgerPlain_store;
      [ first [ apply (entryPlain_user _ _)
              | apply (entryPlain_item _ _); reflexivity
              | apply (entryPlain_review _ _); reflexivity
              | apply entryPlain_counter;
                [ first [now left | now right]
                | first [reflexivity | apply inInt_wrap] ] ] | ] ].

(** Every transaction keeps items, reviews and counters plain. *)
Lemma invoke_ledgerPlain ctx i st : ledgerPlain st -> ledgerPlain (invoke ctx i st).
Proof.
  intros Hst. destruct i; unfold invoke.
  - unfold AddCTIItem, incr. go; entries.
  - unfold UpdateCTIItem, bind, GetClientID, GetState, PutState, ifErr, fail, ret.
    destruct (GetID ctx) as [uploader [e|]]; cbn [fst snd]; [assumption|].
    destruct (getStateErr ctx _); cbn [snd]; [assumption|].
    destruct (lookup ("CTI_" ++ id) st) as [b|] eqn:Hl; cbn [snd]; [|assumption].
    destruct (putStateErr ctx _); cbn [snd]; [assumption|].
    apply lookup_In in Hl.
    destruct (proj1 (Hst _ _ Hl) id eq_refl) as (c & n & _ & _ & ->).
    apply ledgerPlain_store; [|assumption]. now apply entryPlain_item.
  - now rewrite GetCTIItem_state.
  - now rewrite GetAllCTIItems_state.
  - unfold AddUserData. go; entries.
  - now rewrite GetUserDataOld_state.
  - destruct (GetUserData_effect ctx st) as [->| ->]; entries.
  - unfold UpdateUserData. go; entries.
  - unfold AddReviewData, generateUniqueID, incr. go; entries.
  - now rewrite GetAllReviewData_state.
  - now rewrite (GetReviewDataByCTIDataID_scan ctx ctiDataID st st eq_refl).
  - unfold GetCTIItemsFilteredBySubscriptionLevel, bind, orWrap, ret.
    pose proof (GetAllCTIItems_state ctx st) as Hs.
    destruct (GetAllCTIItems ctx st) as [[l|e] st0]; cbn [snd] in *; subst st0; [|assumption].
    pose proof (GetUserData_effect ctx st) as Hu.
    destruct (GetUserData ctx st) as [[u|e] st0]; cbn [snd] in *;
      destruct Hu as [->| ->]; entries.
  - unfold DeleteCTIItemByID. go; entries.
Qed.

Lemma reachable_ledgerPlain st : reachable st -> ledgerPlain st.
Proof.
  induction 1 as [|ctx i st _ IH].
  - intros k v [].
  - now apply invoke_ledgerPlain.
Qed.

Lemma plain_item_lookup id b st :
  ledgerPlain st -> lookup ("CTI_" ++ id) st = Some b ->
  exists c, b = CTIData.Marshal c /\ CTIData.ID (CTIData.coerced c) = id.
Proof.
  intros Hst Hl. apply lookup_In in Hl.
  destruct (proj1 (Hst _ _ Hl) id eq_refl) as (c & n & -> & Hid & ->).
  exists c. split; [reflexivity|]. cbn [CTIData.coerced CTIData.ID].
  rewrite Hid. apply coerce_Itoa.
Qed.

Lemma plain_counter_lookup key b st :
  key = "latestID" \/ key = "latestID_Review" ->
  ledgerPlain st -> lookup key st = Some b ->
  exists n, b = Text (Itoa n) /\ Atoi (string_of_bytes b) = (n, None).
Proof.
  intros Hk Hst Hl. apply lookup_In in Hl.
  destruct (proj2 (proj2 (Hst _ _ Hl)) Hk) as (n & Hn & ->).
  exists n. split; [reflexivity|]. now apply Atoi_Itoa.
Qed.

(** X12.  On a ledger the contract has brought about, [GetCTIItem] of a
    stored item cannot fail to decode it, and the record it returns
    carries the ID that was asked for. *)
Theorem GetCTIItem_returns_the_asked_ID ctx id st :
  reachable st ->
  getStateErr ctx ("CTI_" ++ Itoa id) = None ->
  lookup ("CTI_" ++ Itoa id) st <> None ->
  exists ctiItem,
    GetCTIItem ctx id st = (Ok ctiItem, st) /\ CTIData.ID ctiItem = Itoa id.
Proof.
  intros Hreach Hget Hsome.
  destruct (lookup ("CTI_" ++ Itoa id) st) as [b|] eqn:Hl; [|congruence].
  destruct (plain_item_lookup _ _ _ (reachable_ledgerPlain _ Hreach) Hl) as (c & -> & Hid).
  exists (CTIData.coerced c). split; [|exact Hid].
  unfold GetCTIItem, bind, GetState, ifErr, ret.
  now rewrite Hget, Hl, CTIData_roundtrip.
Qed.

Lemma GetCTIItem_returns_the_asked_ID_witness :
  exists ctiItem,
    GetCTIItem (honest "alice") 3 ledgerOfFive = (Ok ctiItem, ledgerOfFive) /\
    CTIData.ID ctiItem = Itoa 3.
Proof.
  apply (GetCTIItem_returns_the_asked_ID (honest "alice") 3%Z ledgerOfFive).
  - apply reachable_ledgerOfFive.
  - reflexivity.
  - vm_compute. discriminate.
Defined.

Lemma sortedKeys_scan startKey endKey st :
  sortedKeys st -> sortedKeys (scan startKey endKey st).
Proof.
  unfold scan. induction st as [|[k v] rest IH]; intros Hs; [exact I|].
  pose proof (sortedKeys_above _ _ _ Hs) as Habove. destruct Hs as [_ Htl].
  simpl. destruct (inRange startKey endKey k); [|auto].
  apply sortedKeys_cons; [auto|].
  intros kv Hin. apply filter_In in Hin as [Hin _]. now apply Habove.
Qed.

Lemma drainCTI_all_ok ctx it : forall acc st,
  (forall k v, In (k, v) it ->
     nextErr ctx k = None /\ exists c, v = CTIData.Marshal c) ->
  drainCTI ctx it acc st = (Ok (acc ++ decodedItems it)%list, st).
Proof.
  induction it as [|[k v] rest IH]; intros acc st Hall; simpl.
  - unfold ret. now rewrite app_nil_r.
  - destruct (Hall k v (or_introl eq_refl)) as (Hnext & c & ->).
    unfold bind, ifErr, ret. rewrite Hnext, CTIData_roundtrip. cbn [fst snd].
    rewrite IH by (intros k' v' Hin; apply Hall; now right).
    now rewrite <- app_assoc.
Qed.

Lemma drainReviews_all_ok ctx it : forall acc st,
  (forall k v, In (k, v) it ->
     nextErr ctx k = None /\ exists r, v = ReviewData.Marshal r) ->
  drainReviews ctx it acc st = (Ok (acc ++ decodedReviews it)%list, st).
Proof.
  induction it as [|[k v] rest IH]; intros acc st Hall; simpl.
  - unfold ret. now rewrite app_nil_r.
  - destruct (Hall k v (or_introl eq_refl)) as (Hnext & c & ->).
    unfold bind, ifErr, ret. rewrite Hnext, ReviewData_roundtrip. cbn [fst snd].
    rewrite IH by (intros k' v' Hin; apply Hall; now right).
    now rewrite <- app_assoc.
Qed.

Lemma increasing_item_IDs it :
  sortedKeys it ->
  (forall k v, In (k, v) it ->
     exists c, v = CTIData.Marshal c /\ k = "CTI_" ++ CTIData.ID (CTIData.coerced c)) ->
  increasing (map CTIData.ID (decodedItems it)).
Proof.
  induction it as [|[k v] rest IH]; intros Hs Hall; [exact I|].
  destruct Hs as [Hhd Htl].
  destruct (Hall k v (or_introl eq_refl)) as (c & -> & ->).
  unfold decodedItems. cbn [map fst snd]. rewrite CTIData_roundtrip. cbn [fst].
  split; [|apply IH; [exact Htl|intros k' v' Hin; apply Hall; now right]].
  destruct rest as [|[k' v'] rest']; [exact I|].
  destruct (Hall k' v' (or_intror (or_introl eq_refl))) as (c' & -> & ->).
  cbn [map fst snd]. rewrite CTIData_roundtrip. exact Hhd.
Qed.

(** X13.  On a ledger the contract has brought about, the two listings
    fail only when the stub fails: with the range scan and its iterator
    working, [GetAllCTIItems] and [GetAllReviewData] return the decoded
    entries of their ranges.  The IDs of the listed items are in
    strictly increasing byte order, so no ID is listed twice. *)
Theorem listings_succeed_on_own_ledgers ctx st :
  reachable st ->
  (forall k, nextErr ctx k = None) ->
  (rangeErr ctx "CTI_0" "CTI_999999" = None ->
   GetAllCTIItems ctx st = (Ok (decodedItems (scan "CTI_0" "CTI_999999" st)), st) /\
   increasing (map CTIData.ID (decodedItems (scan "CTI_0" "CTI_999999" st)))) /\
  (rangeErr ctx "Review_" "Review_z" = None ->
   GetAllReviewData ctx st = (Ok (decodedReviews (scan "Review_" "Review_z" st)), st)).
Proof.
  intros Hreach Hnext.
  pose proof (reachable_ledgerPlain _ Hreach) as Hplain.
  pose proof (reachable_sorted _ Hreach) as Hsorted.
  split; intros Hrange.
  - assert (Hitems : forall k v, In (k, v) (scan "CTI_0" "CTI_999999" st) ->
              exists c, v = CTIData.Marshal c /\
                        k = "CTI_" ++ CTIData.ID (CTIData.coerced c)).
    { intros k v Hin. apply In_scan in Hin as [Hin Hr]. cbn [fst] in Hr.
      apply items_range_prefix in Hr as [id ->].
      destruct (proj1 (Hplain _ _ Hin) id eq_refl) as (c & n & -> & Hid & ->).
      exists c. split; [reflexivity|]. cbn [CTIData.coerced CTIData.ID].
      now rewrite Hid, coerce_Itoa. }
    split.
    + unfold GetAllCTIItems, bind, GetStateByRange, ifErr, ret. rewrite Hrange.
      apply (drainCTI_all_ok ctx _ []). intros k v Hin.
      destruct (Hitems k v Hin) as (c & -> & _). split; [apply Hnext|now exists c].
    + apply increasing_item_IDs; [now apply sortedKeys_scan|exact Hitems].
  - unfold GetAllReviewData, bind, GetStateByRange, ifErr, ret. rewrite Hrange.
    apply (drainReviews_all_ok ctx _ []). intros k v Hin.
    apply In_scan in Hin as [Hin Hr]. cbn [fst] in Hr.
    apply reviews_range_prefix in Hr as [id ->].
    destruct (proj1 (proj2 (Hplain _ _ Hin)) id eq_refl) as (r & -> & _).
    split; [apply Hnext|now exists r].
Qed.

Lemma reachable_reviewedLedger : reachable reviewedLedger.
Proof. apply reachable_invoke, reachable_ledgerOfFive. Qed.

Lemma reachable_bobsLedger : reachable bobsLedger.
Proof. apply reachable_invoke, reachable_reviewedLedger. Qed.

Lemma listings_succeed_on_own_ledgers_witness :
  (GetAllCTIItems (honest "bob") reviewedLedger =
     (Ok (decodedItems (scan "CTI_0" "CTI_999999" reviewedLedger)), reviewedLedger) /\
   increasing (map CTIData.ID (decodedItems (scan "CTI_0" "CTI_999999" reviewedLedger)))) /\
  GetAllReviewData (honest "bob") reviewedLedger =
    (Ok (decodedReviews (scan "Review_" "Review_z" reviewedLedger)), reviewedLedger).
Proof.
  destruct (listings_succeed_on_own_ledgers (honest "bob") reviewedLedger
              reachable_reviewedLedger (fun _ => eq_refl)) as [HItems HReviews].
  split; [apply HItems|apply HReviews]; reflexivity.
Defined.

(** X14.  On a ledger the contract has brought about the stored counters
    always parse, so the add transactions fail only through a
    collaborator: with the identity resolved and the writes working,
    [AddCTIItem] returns [nil]; with the reads working as well and the
    item there, [AddReviewData] returns [nil]. *)
Theorem adds_succeed_on_own_ledgers
    ctx name timestamp cid encryptKey points level
    ctiDataID accuracy timeliness completeness consistency reviewText st :
  reachable st ->
  snd (GetID ctx) = None ->
  (forall key, putStateErr ctx key = None) ->
  (exists st', AddCTIItem ctx name timestamp cid encryptKey points level st = (Ok tt, st')) /\
  ((forall key, getStateErr ctx key = None) ->
   lookup ("CTI_" ++ ctiDataID) st <> None ->
   exists st',
     AddReviewData ctx ctiDataID accuracy timeliness completeness consistency reviewText st
       = (Ok tt, st')).
Proof.
  intros Hreach Hid Hput.
  pose proof (reachable_ledgerPlain _ Hreach) as Hplain. split.
  - unfold AddCTIItem, bind, GetClientID, GetState, PutState, ifErr, skip, ret, fail.
    destruct (GetID ctx) as [uploader [e|]]; [discriminate|].
    destruct (getStateErr ctx "latestID"); [rewrite !Hput; eauto|].
    destruct (lookup "latestID" st) as [b|] eqn:Hl; [|rewrite !Hput; eauto].
    destruct (plain_counter_lookup "latestID" b st (or_introl eq_refl) Hplain Hl)
      as (n & _ & ->).
    rewrite !Hput. eauto.
  - intros Hget Hsome.
    unfold AddReviewData, generateUniqueID, orWrap, bind, GetClientID, GetState, PutState,
      ifErr, ret, fail.
    destruct (GetID ctx) as [peerID [e|]]; [discriminate|].
    rewrite !Hget. destruct (lookup ("CTI_" ++ ctiDataID) st) as [item|]; [|congruence].
    destruct (lookup ("latestID_" ++ "Review") st) as [b|] eqn:Hl; [|rewrite !Hput; eauto].
    destruct (plain_counter_lookup "latestID_Review" b st (or_intror eq_refl) Hplain Hl)
      as (n & _ & ->).
    rewrite !Hput. eauto.
Qed.

Lemma adds_succeed_on_own_ledgers_witness :
  (exists st', AddCTIItem (honest "carol") "f" 6 "cid6" "k6" 2 1 reviewedLedger = (Ok tt, st')) /\
  (exists st', AddReviewData (honest "carol") "4" 1 2 3 4 "late" reviewedLedger = (Ok tt, st')).
Proof.
  destruct (adds_succeed_on_own_ledgers (honest "carol") "f" 6%Z "cid6" "k6" 2%Z 1%Z
              "4" 1%Z 2%Z 3%Z 4%Z "late" reviewedLedger reachable_reviewedLedger eq_refl
              (fun _ => eq_refl)) as [HItem HReview].
  split; [exact HItem|]. apply HReview; [reflexivity|vm_compute; discriminate].
Defined.

Lemma Itoa_inj n m : inInt n = true -> inInt m = true -> Itoa n = Itoa m -> n = m.
Proof.
  intros Hn Hm H. pose proof (Atoi_Itoa n Hn) as E. rewrite H, (Atoi_Itoa m Hm) in E.
  now inv E.
Qed.

(** The world state a successful [AddCTIItem] leaves, the counter at [n]
    and its read working. *)
Lemma AddItem_next_state ctx a st n r st' :
  counterAt n st -> (0 <= n < maxInt)%Z ->
  getStateErr ctx "latestID" = None ->
  AddItem ctx a st = (Ok r, st') ->
  st' = store "latestID" (Text (Itoa (n + 1)))
          (store ("CTI_" ++ Itoa (n + 1))
             (CTIData.Marshal
                (CTIData.mk (Itoa (n + 1)) (a_name a) (fst (GetID ctx)) (a_timestamp a)
                            (a_cid a) (a_encryptKey a) (a_points a) (a_level a))) st).
Proof.
  intros Hc Hn Hget H. unfold AddItem, AddCTIItem in H. run.
  destruct (GetID ctx) as [uploader [e|]]; run; tidy.
  rewrite Hget in H. run. unfold counterAt, counter in *.
  destruct Hc as [[-> Hc]|[Hpos Hc]]; rewrite Hc in H; run.
  - change (Itoa 1) with "1" in H. go. reflexivity.
  - rewrite Atoi_Itoa in H by (apply inInt_iff; unfold minInt, maxInt in *; lia).
    run. rewrite incr_succ in H by (unfold minInt, maxInt in *; lia). go. reflexivity.
Qed.

(** X15.  Deleting an item gives nothing back to the counter.  After a
    [DeleteCTIItemByID] that returned [nil] the counter is what it was.
    If the deleted ID is at most the counter, the next [AddCTIItem]
    (its read of the counter working) stores its item under the ID
    after the counter, which is not the deleted one, and the key of the
    deleted item stays empty.  An ID above the counter, which a ledger
    has once a failed read has taken the counter back, is outside this
    statement: the add after the deletion of ID [n + 1] takes it again. *)
Theorem deleted_ID_is_not_reused ctx ctx' m a n st r st1 r' st2 :
  counterAt n st -> (0 <= n < maxInt)%Z -> (1 <= m <= n)%Z ->
  DeleteCTIItemByID ctx (Itoa m) st = (Ok r, st1) ->
  getStateErr ctx' "latestID" = None ->
  AddItem ctx' a st1 = (Ok r', st2) ->
  counterAt n st1 /\
  counterAt (n + 1) st2 /\
  lookup ("CTI_" ++ Itoa (n + 1)) st2 =
    Some (CTIData.Marshal
            (CTIData.mk (Itoa (n + 1)) (a_name a) (fst (GetID ctx')) (a_timestamp a)
                        (a_cid a) (a_encryptKey a) (a_points a) (a_level a))) /\
  Itoa (n + 1) <> Itoa m /\
  lookup ("CTI_" ++ Itoa m) st2 = None.
Proof.
  intros Hc Hn Hm Hdel Hget Hadd.
  apply DeleteCTIItemByID_inv in Hdel as [_ ->].
  assert (Hc1 : counterAt n (remove ("CTI_" ++ Itoa m) st)).
  { unfold counterAt, counter in *. now rewrite lookup_remove_neq by discriminate. }
  assert (Hne : Itoa (n + 1) <> Itoa m).
  { intros Heq. apply Itoa_inj in Heq; [lia|apply inInt_iff..];
      unfold minInt, maxInt in *; lia. }
  destruct (AddItem_next ctx' a _ n r' st2 Hc1 Hn Hget Hadd) as [Hc2 Hl].
  repeat split; try assumption.
  rewrite (AddItem_next_state ctx' a _ n r' st2 Hc1 Hn Hget Hadd).
  rewrite lookup_store_neq by discriminate.
  rewrite lookup_store_neq by (intros Heq; apply (append_inj_l "CTI_") in Heq; congruence).
  apply lookup_remove_eq.
Qed.

Lemma deleted_ID_is_not_reused_witness :
  let st1 := snd (DeleteCTIItemByID (honest "bob") (Itoa 3) ledgerOfFive) in
  let st2 := snd (AddItem (honest "alice") report st1) in
  counterAt 5 st1 /\
  counterAt (5 + 1) st2 /\
  lookup ("CTI_" ++ Itoa (5 + 1)) st2 =
    Some (CTIData.Marshal (CTIData.mk (Itoa (5 + 1)) "report" "alice" 7 "cid" "key" 1 0)) /\
  Itoa (5 + 1) <> Itoa 3 /\
  lookup ("CTI_" ++ Itoa 3) st2 = None.
Proof.
  intros st1 st2.
  apply (deleted_ID_is_not_reused (honest "bob") (honest "alice") 3%Z report 5%Z
           ledgerOfFive tt st1 tt st2).
  - right. split; [reflexivity|vm_compute; reflexivity].
  - unfold maxInt. split; [discriminate|reflexivity].
  - split; discriminate.
  - vm_compute. reflexivity.
  - reflexivity.
  - vm_compute. reflexivity.
Defined.

(** ** What each add transaction leaves alone *)

(** X16.  Whatever it returns, [AddCTIItem] changes no key other than
    [latestID] and the key of an item, and [AddReviewData] changes no key
    other than [latestID_Review] and the key of a review: neither
    touches a user record or the other's counter and entities. *)
Theorem adds_touch_their_own_keys
    ctx name timestamp cid encryptKey points level
    ctiDataID accuracy timeliness completeness consistency reviewText st key :
  (key <> "latestID" -> (forall id, key <> "CTI_" ++ id) ->
   lookup key (snd (AddCTIItem ctx name timestamp cid encryptKey points level st)) =
   lookup key st) /\
  (key <> "latestID_Review" -> (forall id, key <> "Review_" ++ id) ->
   lookup key (snd (AddReviewData ctx ctiDataID accuracy timeliness completeness
                                  consistency reviewText st)) =
   lookup key st).
Proof.
  split; intros Hctr Hent.
  - unfold AddCTIItem. go; repeat rewrite lookup_store_neq; auto; apply (Hent _).
  - unfold AddReviewData, generateUniqueID. go; repeat rewrite lookup_store_neq; auto;
      apply (Hent _).
Qed.

Lemma adds_touch_their_own_keys_witness :
  lookup "UserData_bob"
         (snd (AddCTIItem (honest "carol") "f" 6 "cid6" "k6" 2 1 bobsLedger)) =
    lookup "UserData_bob" bobsLedger /\
  lookup "UserData_bob" (snd (AddReviewData (honest "carol") "4" 1 2 3 4 "late" bobsLedger)) =
    lookup "UserData_bob" bobsLedger.
Proof.
  destruct (adds_touch_their_own_keys (honest "carol") "f" 6%Z "cid6" "k6" 2%Z 1%Z
              "4" 1%Z 2%Z 3%Z 4%Z "late" bobsLedger "UserData_bob") as [HItem HReview].
  split; [apply HItem|apply HReview]; try discriminate; intros id; discriminate.
Defined.

(** ** Errors *)

(** X17.  A caller whose identity cannot be resolved gets the error of
    the resolver back, wrapped, from each transaction that asks for it,
    and nothing is written. *)
Theorem unresolved_identity_is_returned
    ctx x e id name timestamp cid encryptKey points level
    uploadCount upoints subscribed balance
    ctiDataID accuracy timeliness completeness consistency reviewText st :
  GetID ctx = (x, Some e) ->
  AddCTIItem ctx name timestamp cid encryptKey points level st =
    (Err (wrapError "failed to get uploader ID: " e), st) /\
  UpdateCTIItem ctx id name timestamp cid encryptKey points level st =
    (Err (wrapError "failed to get uploader ID: " e), st) /\
  AddUserData ctx uploadCount upoints subscribed balance st =
    (Err (wrapError "failed to get client identity: " e), st) /\
  GetUserData ctx st = (Err (wrapError "failed to get current peer ID: " e), st) /\
  UpdateUserData ctx uploadCount upoints subscribed balance st =
    (Err (wrapError "failed to get current peer ID: " e), st) /\
  AddReviewData ctx ctiDataID accuracy timeliness completeness consistency reviewText st =
    (Err (wrapError "failed to get current peer ID: " e), st).
Proof.
  intros Hid.
  unfold AddCTIItem, UpdateCTIItem, AddUserData, GetUserData, UpdateUserData, AddReviewData,
    bind, GetClientID, ifErr, fail, ret.
  rewrite Hid. repeat split.
Qed.

Lemma unresolved_identity_is_returned_witness :
  let ctx := {| GetID := (EmptyString, Some (errorString "no certificate"));
                getStateErr := fun _ => None; putStateErr := fun _ => None;
                delStateErr := fun _ => None; rangeErr := fun _ _ => None;
                nextErr := fun _ => None |} in
  AddCTIItem ctx "f" 6 "cid6" "k6" 2 1 ledgerOfFive =
    (Err (wrapError "failed to get uploader ID: " (errorString "no certificate")),
     ledgerOfFive) /\
  GetUserData ctx ledgerOfFive =
    (Err (wrapError "failed to get current peer ID: " (errorString "no certificate")),
     ledgerOfFive).
Proof.
  intros ctx.
  destruct (unresolved_identity_is_returned ctx EmptyString (errorString "no certificate")
              "1" "f" 6%Z "cid6" "k6" 2%Z 1%Z 0%Z 0%Z 0%Z 0%Z "1" 0%Z 0%Z 0%Z 0%Z "t"
              ledgerOfFive eq_refl) as (HAdd & _ & _ & HGet & _).
  split; [exact HAdd|exact HGet].
Defined.

(** X18.  A user record that does not decode is reported and left as it
    is: [GetUserData] and [GetUserDataOld] return the decoder's error,
    [UpdateUserData] returns it wrapped, and none of them writes; in
    particular [GetUserData] does not put the zero record in its
    place. *)
Theorem undecodable_user_record_is_kept
    ctx peerID b u e uploadCount points subscribed balance st :
  GetID ctx = (peerID, None) ->
  getStateErr ctx ("UserData_" ++ peerID) = None ->
  lookup ("UserData_" ++ peerID) st = Some b ->
  UserData.Unmarshal b = (u, Some e) ->
  GetUserData ctx st = (Err e, st) /\
  GetUserDataOld ctx peerID st = (Err e, st) /\
  UpdateUserData ctx uploadCount points subscribed balance st =
    (Err (wrapError "failed to unmarshal existing user data: " e), st).
Proof.
  intros Hid Hget Hl Hdec.
  unfold GetUserData, GetUserDataOld, UpdateUserData, bind, GetClientID, GetState, ifErr,
    fail, ret.
  rewrite Hid. cbn [fst snd]. rewrite Hget, Hl, Hdec. repeat split.
Qed.

Lemma undecodable_user_record_is_kept_witness :
  let st := store "UserData_bob" (JSON [("Points", JString "many")]) ledgerOfFive in
  GetUserData (honest "bob") st = (Err (UnmarshalError "UserData"), st) /\
  GetUserDataOld (honest "bob") "bob" st = (Err (UnmarshalError "UserData"), st) /\
  UpdateUserData (honest "bob") 1 2 3 4 st =
    (Err (wrapError "failed to unmarshal existing user data: " (UnmarshalError "UserData")),
     st).
Proof.
  intros st.
  apply (undecodable_user_record_is_kept (honest "bob") "bob"
           (JSON [("Points", JString "many")]) UserData.zero (UnmarshalError "UserData")).
  - reflexivity.
  - reflexivity.
  - apply lookup_store_eq.
  - reflexivity.
Defined.

Lemma GetUserData_Err_state ctx st e st' : GetUserData ctx st = (Err e, st') -> st' = st.
Proof.
  unfold GetUserData, bind, GetClientID, GetState, PutState, ifErr, fail, ret.
  destruct (GetID ctx) as [peerID [e0|]]; [now intros [= _ <-]|].
  destruct (getStateErr ctx _); [now intros [= _ <-]|].
  destruct (lookup _ st) as [b|].
  - destruct (UserData.Unmarshal b) as [u [e0|]]; [now intros [= _ <-]|discriminate].
  - destruct (putStateErr ctx _); [now intros [= _ <-]|discriminate].
Qed.

(** X19.  The transactions that make one write, and the queries, write
    nothing when they return an error: this holds of [UpdateCTIItem],
    [AddUserData], [GetUserData], [UpdateUserData], [DeleteCTIItemByID]
    and [GetCTIItemsFilteredBySubscriptionLevel].  In particular a
    listing by subscription level that fails has created no user
    record. *)
Theorem error_means_no_write
    ctx id name timestamp cid encryptKey points level
    uploadCount upoints subscribed balance st e st' :
  (UpdateCTIItem ctx id name timestamp cid encryptKey points level st = (Err e, st') ->
   st' = st) /\
  (AddUserData ctx uploadCount upoints subscribed balance st = (Err e, st') -> st' = st) /\
  (GetUserData ctx st = (Err e, st') -> st' = st) /\
  (UpdateUserData ctx uploadCount upoints subscribed balance st = (Err e, st') -> st' = st) /\
  (DeleteCTIItemByID ctx id st = (Err e, st') -> st' = st) /\
  (GetCTIItemsFilteredBySubscriptionLevel ctx st = (Err e, st') -> st' = st).
Proof.
  repeat split.
  - unfold UpdateCTIItem, bind, GetClientID, GetState, PutState, ifErr, fail, ret.
    destruct (GetID ctx) as [uploader [e0|]]; [now intros [= _ <-]|].
    destruct (getStateErr ctx _); [now intros [= _ <-]|].
    destruct (lookup _ st); [|now intros [= _ <-]].
    destruct (putStateErr ctx _); [now intros [= _ <-]|discriminate].
  - unfold AddUserData, bind, GetClientID, PutState, ifErr, fail, ret.
    destruct (GetID ctx) as [user [e0|]]; [now intros [= _ <-]|].
    destruct (putStateErr ctx _); [now intros [= _ <-]|discriminate].
  - apply GetUserData_Err_state.
  - unfold UpdateUserData, bind, GetClientID, GetState, PutState, ifErr, fail, ret.
    destruct (GetID ctx) as [peerID [e0|]]; [now intros [= _ <-]|].
    destruct (getStateErr ctx _); [now intros [= _ <-]|].
    destruct (lookup _ st) as [b|]; [|now intros [= _ <-]].
    destruct (UserData.Unmarshal b) as [u [e0|]]; [now intros [= _ <-]|].
    destruct (putStateErr ctx _); [now intros [= _ <-]|discriminate].
  - unfold DeleteCTIItemByID, bind, GetState, DelState, ifErr, fail, ret.
    destruct (getStateErr ctx _); [now intros [= _ <-]|].
    destruct (lookup _ st); [|now intros [= _ <-]].
    destruct (delStateErr ctx _); [now intros [= _ <-]|discriminate].
  - unfold GetCTIItemsFilteredBySubscriptionLevel, bind, orWrap, ret.
    pose proof (GetAllCTIItems_state ctx st) as Hs.
    destruct (GetAllCTIItems ctx st) as [[l|e0] st0]; cbn [snd] in Hs; subst st0;
      [|now intros [= _ <-]].
    destruct (GetUserData ctx st) as [[u|e0] st0] eqn:Hu; [discriminate|].
    apply GetUserData_Err_state in Hu. subst st0. now intros [= _ <-].
Qed.

(** A first-time caller whose listing fails at the range scan: no
    record is created for her. *)
Lemma error_means_no_write_witness :
  let ctx := {| GetID := ("carol", None);
                getStateErr := fun _ => None; putStateErr := fun _ => None;
                delStateErr := fun _ => None;
                rangeErr := fun _ _ => Some (errorString "scan refused");
                nextErr := fun _ => None |} in
  snd (GetCTIItemsFilteredBySubscriptionLevel ctx ledgerOfFive) = ledgerOfFive /\
  snd (UpdateCTIItem (honest "carol") "9" "f" 6 "cid6" "k6" 2 1 ledgerOfFive) = ledgerOfFive.
Proof.
  intros ctx. split.
  - apply (proj2 (proj2 (proj2 (proj2 (proj2
             (error_means_no_write ctx "1" "n" 0%Z "c" "k" 0%Z 0%Z 0%Z 0%Z 0%Z 0%Z ledgerOfFive
                (wrapError "failed to get all CTI data entries: "
                   (wrapError "failed to get CTI data range: " (errorString "scan refused")))
                _)))))).
    reflexivity.
  - apply (proj1 (error_means_no_write (honest "carol") "9" "f" 6%Z "cid6" "k6" 2%Z 1%Z
                    0%Z 0%Z 0%Z 0%Z ledgerOfFive
                    (errorString "CTI item with ID 9 does not exist") _)).
    vm_compute. reflexivity.
Defined.

(** ** How transactions compose *)

Lemma store_store key value value' st :
  store key value' (store key value st) = store key value' st.
Proof.
  induction st as [|[k v] rest IH]; simpl.
  - now rewrite String.eqb_refl.
  - destruct (key =? k) eqn:Heq; simpl.
    + now rewrite String.eqb_refl.
    + destruct (String.ltb key k) eqn:Hlt; simpl.
      * now rewrite String.eqb_refl.
      * now rewrite Heq, Hlt, IH.
Qed.

Lemma UpdateUserData_Ok_put ctx uploadCount points subscribed balance st r st' :
  UpdateUserData ctx uploadCount points subscribed balance st = (Ok r, st') ->
  putStateErr ctx ("UserData_" ++ fst (GetID ctx)) = None.
Proof.
  unfold UpdateUserData, bind, GetClientID, GetState, PutState, ifErr, fail, ret.
  destruct (GetID ctx) as [peerID [e|]]; [discriminate|]. cbn [fst].
  destruct (getStateErr ctx _); [discriminate|].
  destruct (lookup _ st) as [b|]; [|discriminate].
  destruct (UserData.Unmarshal b) as [u [e|]]; [discriminate|].
  destruct (putStateErr ctx _); [discriminate|reflexivity].
Qed.

(** X20.  The last [UpdateUserData] wins: two updates in a row by the
    same caller leave the world state that the second alone would have
    left; nothing of the first update's four fields remains. *)
Theorem UpdateUserData_last_wins
    ctx uploadCount points subscribed balance
    uploadCount' points' subscribed' balance' st r st1 r' st2 :
  UpdateUserData ctx uploadCount points subscribed balance st = (Ok r, st1) ->
  UpdateUserData ctx uploadCount' points' subscribed' balance' st1 = (Ok r', st2) ->
  UpdateUserData ctx uploadCount' points' subscribed' balance' st = (Ok tt, st2).
Proof.
  intros H1 H2.
  pose proof (UpdateUserData_Ok_put _ _ _ _ _ _ _ _ H1) as Hput.
  apply UpdateUserData_inv in H1 as (peerID & b & existing & Hid & Hget & Hb & Hdec & ->).
  apply UpdateUserData_inv in H2 as (peerID' & b' & existing' & Hid' & _ & Hb' & Hdec' & ->).
  rewrite Hid in Hid'. inv Hid'. rewrite Hid in Hput. cbn [fst] in Hput.
  rewrite lookup_store_eq in Hb'. inv Hb'. rewrite UserData_roundtrip in Hdec'. inv Hdec'.
  cbn [UserData.ID UserData.UserLevel]. rewrite store_store.
  unfold UpdateUserData, bind, GetClientID, GetState, PutState, ifErr, fail, ret.
  rewrite Hid. cbn [fst snd]. now rewrite Hget, Hb, Hdec, Hput.
Qed.

Lemma UpdateUserData_last_wins_witness :
  let st1 := snd (UpdateUserData (honest "bob") 4 40 2 90 bobsLedger) in
  let st2 := snd (UpdateUserData (honest "bob") 5 50 0 80 st1) in
  UpdateUserData (honest "bob") 5 50 0 80 bobsLedger = (Ok tt, st2).
Proof.
  intros st1 st2.
  apply (UpdateUserData_last_wins (honest "bob") 4%Z 40%Z 2%Z 90%Z 5%Z 50%Z 0%Z 80%Z
           bobsLedger tt st1 tt); vm_compute; reflexivity.
Defined.

(** X21.  Once an item is deleted, its id is gone for every transaction
    that checks it: a second [DeleteCTIItemByID], an [UpdateCTIItem] and
    an [AddReviewData] of that id each return their does-not-exist error
    and write nothing (the stub and the identity working). *)
Theorem deleted_item_is_gone
    ctx ctx' id name timestamp cid encryptKey points level
    accuracy timeliness completeness consistency reviewText st r st' :
  DeleteCTIItemByID ctx id st = (Ok r, st') ->
  snd (GetID ctx') = None ->
  getStateErr ctx' ("CTI_" ++ id) = None ->
  DeleteCTIItemByID ctx' id st' =
    (Err (errorString ("CTI data entry with ID " ++ id ++ " does not exist")), st') /\
  UpdateCTIItem ctx' id name timestamp cid encryptKey points level st' =
    (Err (errorString ("CTI item with ID " ++ id ++ " does not exist")), st') /\
  AddReviewData ctx' id accuracy timeliness completeness consistency reviewText st' =
    (Err (errorString ("CTI item with ID " ++ id ++ " does not exist")), st').
Proof.
  intros Hdel Hid Hget. apply DeleteCTIItemByID_inv in Hdel as [_ ->].
  pose proof (lookup_remove_eq ("CTI_" ++ id) st) as Hl.
  unfold DeleteCTIItemByID, UpdateCTIItem, AddReviewData, bind, GetClientID, GetState,
    ifErr, fail, ret.
  destruct (GetID ctx') as [peerID [e|]]; [discriminate|].
  cbn [fst snd]. rewrite Hget, Hl. repeat split.
Qed.

Lemma deleted_item_is_gone_witness :
  let st' := snd (DeleteCTIItemByID (honest "bob") "2" reviewedLedger) in
  DeleteCTIItemByID (honest "bob") "2" st' =
    (Err (errorString "CTI data entry with ID 2 does not exist"), st') /\
  UpdateCTIItem (honest "bob") "2" "b" 2 "cid2" "k2" 1 0 st' =
    (Err (errorString "CTI item with ID 2 does not exist"), st') /\
  AddReviewData (honest "alice") "2" 1 1 1 1 "again" st' =
    (Err (errorString "CTI item with ID 2 does not exist"), st').
Proof.
  intros st'.
  destruct (deleted_item_is_gone (honest "bob") (honest "bob") "2" "b" 2%Z "cid2" "k2" 1%Z 0%Z
              1%Z 1%Z 1%Z 1%Z "again" reviewedLedger tt st')
    as (HDel & HUpd & _); [vm_compute; reflexivity|reflexivity|reflexivity|].
  destruct (deleted_item_is_gone (honest "bob") (honest "alice") "2" "b" 2%Z "cid2" "k2" 1%Z 0%Z
              1%Z 1%Z 1%Z 1%Z "again" reviewedLedger tt st')
    as (_ & _ & HRev); [vm_compute; reflexivity|reflexivity|reflexivity|].
  split; [exact HDel|]. split; [exact HUpd|exact HRev].
Defined.

(** X22.  The two add transactions make two writes each and do not undo
    the first when the second fails.  If the write of the counter fails
    in [AddCTIItem], the error is returned with the item already
    written; if the write of the review fails in [AddReviewData], the
    error is returned with the counter of the reviews already moved. *)
Theorem adds_leave_first_write_on_late_failure
    ctx uploader e name timestamp cid encryptKey points level
    ctiDataID accuracy timeliness completeness consistency reviewText n st :
  GetID ctx = (uploader, None) ->
  (forall key, getStateErr ctx key = None) ->
  (0 <= n < maxInt)%Z ->
  (counterAt n st ->
   putStateErr ctx ("CTI_" ++ Itoa (n + 1)) = None ->
   putStateErr ctx "latestID" = Some e ->
   AddCTIItem ctx name timestamp cid encryptKey points level st =
     (Err (wrapError "failed to update latest ID on ledger: " e),
      store ("CTI_" ++ Itoa (n + 1))
            (CTIData.Marshal
               (CTIData.mk (Itoa (n + 1)) name uploader timestamp cid encryptKey points level))
            st)) /\
  (counterHolds "latestID_Review" n st ->
   lookup ("CTI_" ++ ctiDataID) st <> None ->
   putStateErr ctx "latestID_Review" = None ->
   putStateErr ctx ("Review_Review_" ++ Itoa (n + 1)) = Some e ->
   AddReviewData ctx ctiDataID accuracy timeliness completeness consistency reviewText st =
     (Err (wrapError "failed to put review data on ledger: " e),
      store "latestID_Review" (Text (Itoa (n + 1))) st)).
Proof.
  intros Hid Hget Hn. split.
  - intros Hc Hput1 Hput2.
    unfold AddCTIItem, bind, GetClientID, GetState, PutState, ifErr, skip, fail, ret.
    rewrite Hid, Hget. cbn [fst snd].
    destruct Hc as [[-> Hc]|[Hpos Hc]]; unfold counter in Hc; rewrite Hc.
    + change (Itoa (0 + 1)) with (Itoa 1) in *. now rewrite Hput1, Hput2.
    + cbn [string_of_bytes].
      rewrite Atoi_Itoa by (apply inInt_iff; unfold minInt, maxInt in *; lia).
      rewrite incr_succ by (unfold minInt, maxInt in *; lia). now rewrite Hput1, Hput2.
  - intros Hc Hsome Hput1 Hput2.
    pose proof (generateUniqueID_step ctx "Review" n st Hc Hn (Hget _) Hput1) as Hgen.
    unfold AddReviewData, bind, orWrap, GetClientID, GetState, PutState, ifErr, fail, ret.
    rewrite Hid, Hget. cbn [fst snd].
    destruct (lookup ("CTI_" ++ ctiDataID) st); [|congruence].
    rewrite Hgen.
    change ("Review_" ++ "Review" ++ "_" ++ Itoa (n + 1))
      with ("Review_Review_" ++ Itoa (n + 1)).
    now rewrite Hput2.
Qed.

Lemma adds_leave_first_write_on_late_failure_witness :
  let ctx := {| GetID := ("carol", None);
                getStateErr := fun _ => None;
                putStateErr := fun key =>
                  if (key =? "latestID") || (key =? "Review_Review_2")
                  then Some (errorString "write refused") else None;
                delStateErr := fun _ => None; rangeErr := fun _ _ => None;
                nextErr := fun _ => None |} in
  AddCTIItem ctx "f" 6 "cid6" "k6" 2 1 ledgerOfFive =
    (Err (wrapError "failed to update latest ID on ledger: " (errorString "write refused")),
     store ("CTI_" ++ Itoa (5 + 1))
           (CTIData.Marshal (CTIData.mk (Itoa (5 + 1)) "f" "carol" 6 "cid6" "k6" 2 1))
           ledgerOfFive) /\
  AddReviewData ctx "4" 1 2 3 4 "late" reviewedLedger =
    (Err (wrapError "failed to put review data on ledger: " (errorString "write refused")),
     store "latestID_Review" (Text (Itoa (1 + 1))) reviewedLedger).
Proof.
  intros ctx. split.
  - apply (proj1 (adds_leave_first_write_on_late_failure ctx "carol"
                    (errorString "write refused") "f" 6%Z "cid6" "k6" 2%Z 1%Z
                    "4" 1%Z 2%Z 3%Z 4%Z "late" 5%Z ledgerOfFive eq_refl (fun _ => eq_refl)
                    ltac:(unfold maxInt; lia))).
    + right. split; [reflexivity|vm_compute; reflexivity].
    + reflexivity.
    + reflexivity.
  - apply (proj2 (adds_leave_first_write_on_late_failure ctx "carol"
                    (errorString "write refused") "f" 6%Z "cid6" "k6" 2%Z 1%Z
                    "4" 1%Z 2%Z 3%Z 4%Z "late" 1%Z reviewedLedger eq_refl (fun _ => eq_refl)
                    ltac:(unfold maxInt; lia))).
    + right. split; [reflexivity|vm_compute; reflexivity].
    + vm_compute. discriminate.
    + reflexivity.
    + reflexivity.
Defined.

(** ** Keys *)

(** X23.  Keys do not collide.  Two [int] IDs give the same item key, or
    the same review key, only if they are equal, and two identities the
    same user key only if they are equal; and a key of one kind (item,
    user record, review, either counter) is never a key of another. *)
Theorem keys_do_not_collide :
  (forall n m, inInt n = true -> inInt m = true ->
     "CTI_" ++ Itoa n = "CTI_" ++ Itoa m -> n = m) /\
  (forall n m, inInt n = true -> inInt m = true ->
     "Review_" ++ ("Review" ++ "_" ++ Itoa n) = "Review_" ++ ("Review" ++ "_" ++ Itoa m) ->
     n = m) /\
  (forall user user', "UserData_" ++ user = "UserData_" ++ user' -> user = user') /\
  (forall a b, "CTI_" ++ a <> "UserData_" ++ b /\ "CTI_" ++ a <> "Review_" ++ b /\
               "UserData_" ++ a <> "Review_" ++ b /\
               "CTI_" ++ a <> "latestID" /\ "CTI_" ++ a <> "latestID_" ++ b /\
               "UserData_" ++ a <> "latestID" /\ "UserData_" ++ a <> "latestID_" ++ b /\
               "Review_" ++ a <> "latestID" /\ "Review_" ++ a <> "latestID_" ++ b /\
               "latestID" <> "latestID_" ++ b).
Proof.
  repeat split; try discriminate.
  - intros n m Hn Hm H. apply (append_inj_l "CTI_") in H. now apply Itoa_inj.
  - intros n m Hn Hm H. apply (append_inj_l "Review_Review_") in H. now apply Itoa_inj.
  - intros user user' H. now apply (append_inj_l "UserData_") in H.
Qed.

Lemma keys_do_not_collide_witness :
  (12 = 6 + 6)%Z /\ "bob" = "b" ++ "ob".
Proof.
  destruct keys_do_not_collide as (HItem & _ & HUser & _). split.
  - apply (HItem 12%Z (6 + 6)%Z); reflexivity.
  - apply (HUser "bob" ("b" ++ "ob")). reflexivity.
Defined.
